(** * bcbio-nextgen-vm: telemetry harvesting and reporting

    A shallow embedding of
      - [bcbiovm/provider/common/resources.py] (Collector, Parser),
      - [bcbiovm/provider/base.py] (BaseCloudProvider._execute_remote),
      - [bcbiovm/provider/azure/common.py] (AzureAPI.security_groups),
      - [bcbiovm/provider/azure/resources.py] (Report.add_security_groups_info),
    followed by the properties of the specification that concern them.

    Python objects are modelled as records, dictionaries as finite maps
    or association lists, exceptions as the [Raise] branch of [result],
    and side effects (local cache, sessions, logging) by explicit state
    passing. *)

From Stdlib Require Import ZArith QArith String Ascii List Lia Bool.
From stdpp Require Import base option list strings gmap.

Local Open Scope string_scope.
Local Open Scope Z_scope.

(** ** Python runtime: values, exceptions, results *)

Module Py.

(** The few dynamically typed values that flow through the code. *)
Inductive pyval : Type :=
| PyNone
| PyInt (z : Z)
| PyStr (s : string).

(** Truth value of an object ([if x:], [not x]). *)
Definition truthy (v : pyval) : bool :=
  match v with
  | PyNone => false
  | PyInt z => negb (z =? 0)
  | PyStr s => negb (String.eqb s "")
  end.

(** Exception classes.  The first four are paramiko's:
    [AuthenticationException], [BadHostKeyException] and
    [ChannelException] derive from [SSHException]. *)
Inductive exc_class : Type :=
| SSHException
| AuthenticationException
| BadHostKeyException
| ChannelException
| SocketError
| EOFError
| OSError
| IOError
| AttributeError
| ValueError
| IndexError
| KeyError
| TypeError
| ParseError
| ProgrammingError.

Record exc : Type := Exc { exc_cls : exc_class; exc_msg : string }.

(** [isinstance(e, paramiko.SSHException)] *)
Definition is_SSHException (e : exc) : bool :=
  match exc_cls e with
  | SSHException | AuthenticationException
  | BadHostKeyException | ChannelException => true
  | _ => false
  end.

(** [isinstance(e, ElementTree.ParseError)] *)
Definition is_ParseError (e : exc) : bool :=
  match exc_cls e with ParseError => true | _ => false end.

(** Outcome of evaluating an expression. *)
Inductive result (A : Type) : Type :=
| Return (a : A)
| Raise (e : exc).
Arguments Return {A} a.
Arguments Raise {A} e.

Definition result_bind {A B} (f : A -> result B) (m : result A) : result B :=
  match m with Return a => f a | Raise e => Raise e end.

(** Computations over a mutable world [S] that may raise; the world
    survives an exception. *)
Definition M (S A : Type) : Type := S -> result A * S.

Definition ret {S A} (a : A) : M S A := fun s => (Return a, s).
Definition raise {S A} (e : exc) : M S A := fun s => (Raise e, s).
Definition bind {S A B} (m : M S A) (f : A -> M S B) : M S B :=
  fun s => match m s with
           | (Return a, s') => f a s'
           | (Raise e, s') => (Raise e, s')
           end.
Definition lift {S A} (r : result A) : M S A := fun s => (r, s).
Definition get {S} : M S S := fun s => (Return s, s).
Definition modify {S} (f : S -> S) : M S unit := fun s => (Return tt, f s).

(** [for x in l: body(x)] *)
Fixpoint for_ {S A} (l : list A) (body : A -> M S unit) : M S unit :=
  match l with
  | [] => ret tt
  | x :: l' => bind (body x) (fun _ => for_ l' body)
  end.

(** [int(x)] for a float [x]: truncation towards zero. *)
Definition int_of_float (x : Q) : Z := Z.quot (Qnum x) (Zpos (Qden x)).

(** [int(s)] for a string: optional surrounding blanks, optional sign,
    then one or more decimal digits; anything else raises
    [ValueError]. *)
Definition is_digit (c : ascii) : bool :=
  (48 <=? nat_of_ascii c)%nat && (nat_of_ascii c <=? 57)%nat.

Definition is_space (c : ascii) : bool :=
  let n := nat_of_ascii c in
  ((9 <=? n)%nat && (n <=? 13)%nat) || (n =? 32)%nat.

Fixpoint lstrip (s : string) : string :=
  match s with
  | String c s' => if is_space c then lstrip s' else s
  | EmptyString => EmptyString
  end.

Fixpoint digits_value (acc : Z) (s : string) : option Z :=
  match s with
  | EmptyString => Some acc
  | String c s' =>
      if is_digit c
      then digits_value (10 * acc + (Z.of_nat (nat_of_ascii c) - 48)) s'
      else if String.eqb (lstrip s) "" then Some acc else None
  end.

Definition int_of_string (s : string) : result Z :=
  let bad := Raise (Exc ValueError "invalid literal for int()") in
  let unsigned (t : string) (sign : Z) :=
    match t with
    | String c _ =>
        if is_digit c
        then match digits_value 0 t with
             | Some z => Return (sign * z)
             | None => bad
             end
        else bad
    | EmptyString => bad
    end in
  match lstrip s with
  | String "-" t => unsigned t (-1)
  | String "+" t => unsigned t 1
  | t => unsigned t 1
  end.

(** [l[i]] on a list. *)
Definition index {A} (l : list A) (i : nat) : result A :=
  match nth_error l i with
  | Some a => Return a
  | None => Raise (Exc IndexError "list index out of range")
  end.

(** [os.path.basename] *)
Fixpoint has_slash (s : string) : bool :=
  match s with
  | EmptyString => false
  | String c s' => Ascii.eqb c "/"%char || has_slash s'
  end.

Fixpoint basename (s : string) : string :=
  match s with
  | EmptyString => EmptyString
  | String c s' =>
      if has_slash s' then basename s'
      else if Ascii.eqb c "/"%char then s' else s
  end.

(** [str.endswith] *)
Definition endswith (s suffix : string) : bool :=
  let n := String.length s in
  let k := String.length suffix in
  (k <=? n)%nat && String.eqb (substring (n - k) k s) suffix.

(** [os.path.join(a, b)] for two components. *)
Definition path_join (a b : string) : string :=
  match b with
  | String "/" _ => b
  | _ => if String.eqb a "" || endswith a "/" then a ++ b
         else a ++ "/" ++ b
  end.

(** [sorted] on strings: a stable insertion sort under the byte-wise
    lexicographic order, which is how Python 2 compares [str]. *)
Fixpoint insert_sorted (x : string) (l : list string) : list string :=
  match l with
  | [] => [x]
  | y :: l' => if String.ltb x y then x :: l else y :: insert_sorted x l'
  end.

Definition sorted (l : list string) : list string :=
  foldr insert_sorted [] (rev l).

End Py.

Import Py.

#[global] Instance result_ret : MRet result := @Return.
#[global] Instance result_mbind : MBind result := @result_bind.
#[global] Instance M_ret {S} : MRet (M S) := @ret S.
#[global] Instance M_mbind {S} : MBind (M S) := fun A B f m => bind m f.

(** ** Collector (provider/common/resources.py) *)

Module Collector.

Definition COLLECTL_PATH : string := "/var/log/collectl/*.raw.gz".
Definition NATDevice : string := "NATDevice".

(** *** The cluster snapshot handed over by elasticluster *)

Record Node : Type := {
  preferred_ip : option string;
  image_user : string;
  user_key_private : string
}.

(** [cluster.nodes] maps a node kind to its nodes. *)
Record Cluster : Type := {
  nodes : list (string * list Node);
  known_hosts_file : string
}.

Definition get_all_nodes (c : Cluster) : list Node :=
  concat (map snd (nodes c)).

(** [if node.preferred_ip] *)
Definition has_ip (n : Node) : bool :=
  match preferred_ip n with
  | Some ip => truthy (PyStr ip)
  | None => false
  end.

Definition ip_of (n : Node) : string := default "" (preferred_ip n).

(** *** Sessions, the local cache and the remote side *)

Inductive policy : Type := AutoAddPolicy | RejectPolicy.

(** A [utils.SSHClient] after [_get_ssh_client] has configured it. *)
Record SSHClient : Type := {
  host : string;
  user : string;
  port : pyval;
  missing_host_key_policy : policy;
  host_keys : string
}.

(** What [os.stat] reports for a file of the local cache. *)
Record LocalStat : Type := { st_mtime : Q; st_size : Z }.

(** Observable actions of a run, oldest first. *)
Inductive event : Type :=
| AgentAdd (keys : gset string)
| AgentRemove (keys : gset string)
| Connect (c : SSHClient) (bastion_host : pyval)
| Stat (c : SSHClient)
| DiskSpace (c : SSHClient)
| Download (c : SSHClient) (remote dest : string) (utime : pyval * pyval)
| Close (c : SSHClient).

Record World : Type := {
  cache : gmap string LocalStat;
  trace : list event
}.

Definition emit (e : event) : M World unit :=
  modify (fun w => {| cache := cache w; trace := trace w ++ [e] |}).

(** The collaborators outside this module: the network behind
    [utils.SSHClient] and the ICEL naming service. *)
Record Env : Type := {
  net_connect : SSHClient -> pyval -> option exc;
  net_stat : SSHClient -> string -> list string -> result (list (list string));
  net_fetch : SSHClient -> string -> result Z;
  net_disk_space : SSHClient -> string -> string -> result (list string);
  icel_stack_name : pyval -> result pyval;
  icel_instances : pyval -> result (list (string * string))
}.

Record Self : Type := {
  _output : string;
  _cluster : Cluster
}.

(** Modelled from the spec: [utils.SSHClient.connect], which opens the
    session, optionally through a bastion, or fails with a
    connectivity error. *)
Definition ssh_connect (env : Env) (c : SSHClient) (bastion_host : pyval)
  : M World unit :=
  _ ← emit (Connect c bastion_host);
  match net_connect env c bastion_host with
  | Some e => raise e
  | None => mret tt
  end.

(** Modelled from the spec: [utils.SSHClient.stat], one row of fields
    per remote file that matches the glob. *)
Definition ssh_stat (env : Env) (c : SSHClient) (path : string)
    (format : list string) : M World (list (list string)) :=
  _ ← emit (Stat c);
  lift (net_stat env c path format).

(** Modelled from the spec: [utils.SSHClient.download_file], which
    transfers the file and then sets the local access and modification
    times to [utime]. *)
Definition ssh_download_file (env : Env) (c : SSHClient)
    (remote dest : string) (utime : pyval * pyval) : M World unit :=
  _ ← emit (Download c remote dest utime);
  sz ← lift (net_fetch env c remote);
  match snd utime with
  | PyInt m =>
      modify (fun w =>
        {| cache := <[dest := {| st_mtime := inject_Z m; st_size := sz |}]>
                      (cache w);
           trace := trace w |})
  | _ => raise (Exc TypeError "an integer is required")
  end.

(** Modelled from the spec: [utils.SSHClient.disk_space]. *)
Definition ssh_disk_space (env : Env) (c : SSHClient) (path ftype : string)
  : M World (list string) :=
  _ ← emit (DiskSpace c);
  lift (net_disk_space env c path ftype).

(** Modelled from the spec: [utils.SSHClient.close]. *)
Definition ssh_close (c : SSHClient) : M World unit := emit (Close c).

(** Modelled from the spec: the [utils.SSHAgent] context manager, all
    keys added on entry and removed on exit, whether the body returns
    or raises. *)
Definition with_SSHAgent {A} (keys : gset string) (body : M World A)
  : M World A :=
  fun w =>
    match emit (AgentAdd keys) w with
    | (_, w1) =>
        match body w1 with
        | (r, w2) => (r, snd (emit (AgentRemove keys) w2))
        end
    end.

(** *** The methods of [Collector] *)

Definition _get_ssh_client (env : Env) (self : Self) (host user : string)
    (port : pyval) (bastion_host : pyval) : M World SSHClient :=
  let policy := if truthy bastion_host then AutoAddPolicy
                else RejectPolicy in
  let ssh_client := {| host := host; user := user; port := port;
                       missing_host_key_policy := policy;
                       host_keys := known_hosts_file (_cluster self) |} in
  _ ← ssh_connect env ssh_client bastion_host;
  mret ssh_client.

(** The named tuple built in [_collectl_files]; its second field is
    declared as [mtine]. *)
Record FileInfo : Type := {
  atime : Z;
  mtine : Z;
  size : Z;
  path : string
}.

(** Attribute access on the named tuple. *)
Definition FileInfo_getattr (t : FileInfo) (name : string) : result pyval :=
  if String.eqb name "atime" then Return (PyInt (atime t))
  else if String.eqb name "mtine" then Return (PyInt (mtine t))
  else if String.eqb name "size" then Return (PyInt (size t))
  else if String.eqb name "path" then Return (PyStr (path t))
  else Raise (Exc AttributeError name).

(** One step of the generator [_collectl_files]: the body of its loop
    on a row of [ssh_client.stat]. *)
Definition _collectl_files_item (file_info : list string) : result FileInfo :=
  access_time ← index file_info 0 ≫= int_of_string;
  modified_time ← index file_info 1 ≫= int_of_string;
  size ← index file_info 2 ≫= int_of_string;
  path ← index file_info 3;
  mret {| atime := access_time; mtine := modified_time;
          size := size; path := path |}.

Definition os_path_exists (fs : gmap string LocalStat) (p : string) : bool :=
  bool_decide (is_Some (fs !! p)).

Definition os_path_getmtime (fs : gmap string LocalStat) (p : string)
  : result Q :=
  match fs !! p with
  | Some st => Return (st_mtime st)
  | None => Raise (Exc OSError p)
  end.

Definition os_path_getsize (fs : gmap string LocalStat) (p : string)
  : result Z :=
  match fs !! p with
  | Some st => Return (st_size st)
  | None => Raise (Exc OSError p)
  end.

Definition _is_different (fs : gmap string LocalStat) (path : string)
    (remote : FileInfo) : result bool :=
  if negb (os_path_exists fs path) then Return true
  else
    mt ← os_path_getmtime fs path;
    if negb (int_of_float mt =? mtine remote) then Return true
    else
      sz ← os_path_getsize fs path;
      if negb (sz =? size remote) then Return true
      else Return false.

(** The body of the loop of [_collect], for one row of [stat]. *)
Definition _collect_file (env : Env) (self : Self) (ssh_client : SSHClient)
    (file_info : list string) : M World unit :=
  collectl ← lift (_collectl_files_item file_info);
  let destination := path_join (_output self) (basename (path collectl)) in
  w ← get;
  different ← lift (_is_different (cache w) destination collectl);
  if negb different then mret tt
  else
    a ← lift (FileInfo_getattr collectl "atime");
    m ← lift (FileInfo_getattr collectl "mtime");
    ssh_download_file env ssh_client (path collectl) destination (a, m).

(** [_collect] hands its [bastion_host] to [_get_ssh_client] as the
    third positional argument. *)
Definition _collect (env : Env) (self : Self) (host user : string)
    (bastion_host : pyval) : M World unit :=
  ssh_client ← _get_ssh_client env self host user bastion_host PyNone;
  rows ← ssh_stat env ssh_client COLLECTL_PATH ["%s"; "%X"; "%Y"; "%n"];
  _ ← for_ rows (_collect_file env self ssh_client);
  ssh_close ssh_client.

(** [s.split(':')[0]] *)
Fixpoint before_colon (s : string) : string :=
  match s with
  | EmptyString => EmptyString
  | String c s' =>
      if Ascii.eqb c ":"%char then EmptyString
      else String c (before_colon s')
  end.

Definition _management_target (env : Env) (self : Self) : M World pyval :=
  node ← lift (index (get_all_nodes (_cluster self)) 0);
  if negb (has_ip node) then mret PyNone
  else
    ssh_client ← _get_ssh_client env self (ip_of node) (image_user node)
                   (PyInt 22) PyNone;
    disk_info ← ssh_disk_space env ssh_client "/scratch" "lustre";
    _ ← ssh_close ssh_client;
    match disk_info with
    | [] => mret PyNone
    | d :: _ => mret (PyStr (before_colon d))
    end.

(** [d[key]] on a dictionary kept as an association list. *)
Definition getitem (d : list (string * string)) (key : string)
  : result string :=
  match find (fun kv => String.eqb (fst kv) key) d with
  | Some kv => Return (snd kv)
  | None => Raise (Exc KeyError key)
  end.

Definition _fetch_collectl_lustre (env : Env) (self : Self) : M World unit :=
  management_target ← _management_target env self;
  stack_name ← lift (icel_stack_name env management_target);
  if negb (truthy stack_name) then mret tt
  else
    icel_hosts ← lift (icel_instances env stack_name);
    for_ icel_hosts (fun item =>
      if String.eqb (fst item) NATDevice then mret tt
      else
        nat_host ← lift (getitem icel_hosts NATDevice);
        _collect env self (snd item) "ec2-user" (PyStr nat_host)).

(** [available_nodes] and [private_keys] memoise their answer on the
    object; the cluster snapshot does not change, so the memoised value
    is the computed one. *)
Definition available_nodes (self : Self) : list Node :=
  filter (fun n => has_ip n = true) (get_all_nodes (_cluster self)).

Definition private_keys (self : Self) : gset string :=
  list_to_set (map user_key_private (get_all_nodes (_cluster self))).

Definition run (env : Env) (self : Self) : M World unit :=
  with_SSHAgent (private_keys self)
    (_ ← for_ (available_nodes self) (fun node =>
           _collect env self (ip_of node) (image_user node) PyNone);
     _fetch_collectl_lustre env self).

End Collector.

(** ** Parser (provider/common/resources.py) *)

Module Parser.

Definition COLLECTL_SUFFIX : string := ".raw.gz".

(** *** The regular expression [-\d{8}-\d{6}\.raw\.gz$]

    Every atom of the pattern has a fixed width, so matching at a
    position is a plain left-to-right scan. *)

(** A literal: the rest of [s] behind the prefix [p]. *)
Fixpoint match_lit (p s : string) : option string :=
  match p with
  | EmptyString => Some s
  | String a p' =>
      match s with
      | String b s' => if Ascii.eqb a b then match_lit p' s' else None
      | EmptyString => None
      end
  end.

(** [\d{n}] *)
Fixpoint match_digits (n : nat) (s : string) : option string :=
  match n with
  | O => Some s
  | S n' =>
      match s with
      | String c s' => if is_digit c then match_digits n' s' else None
      | EmptyString => None
      end
  end.

(** [$]: the end of the string, or just before a final newline. *)
Definition match_end (s : string) : bool :=
  String.eqb s "" || String.eqb s (String "010"%char "").

(** A match of the whole pattern starting at the head of [s]; the
    result is what is left of [s] behind the match. *)
Definition match_here (s : string) : option string :=
  s1 ← match_lit "-" s;
  s2 ← match_digits 8 s1;
  s3 ← match_lit "-" s2;
  s4 ← match_digits 6 s3;
  s5 ← match_lit ".raw.gz" s4;
  if match_end s5 then Some s5 else None.

(** [re.sub(r'-\d{8}-\d{6}\.raw\.gz$', '', s)]: the leftmost match is
    replaced by the empty string; what is left behind a match is at
    most a newline, where the pattern cannot match again. *)
Fixpoint host_key (s : string) : string :=
  match s with
  | EmptyString => EmptyString
  | String c s' =>
      match match_here s with
      | Some rest => rest
      | None => String c (host_key s')
      end
  end.

Section WithTypes.

(** [K]: the keys of the timing log; [Row]: a row of a data frame;
    [Hardware]: the hardware description of a host. *)
Context {K V Row Hardware : Type}.

(** Python's [<] on keys ([x > y] is [y < x]). *)
Variable ltb : K -> K -> bool.

(** The collaborators: [bcbio.graph] and the local file system. *)
Record Env : Type := {
  get_bcbio_timings : string -> result (list (K * V));
  os_listdir : string -> result (list string);
  load_collectl : string -> K -> K -> result (list Row * Hardware)
}.

Record Self : Type := { _bcbio_log : string; _rawdir : string }.

(** The named tuple [Time]. *)
Record Time : Type := { start : K; end_ : K; steps : list K }.

(** [min] and [max] of a sequence: the first smallest (largest)
    element, [ValueError] on an empty one. *)
Definition py_min (l : list K) : result K :=
  match l with
  | [] => Raise (Exc ValueError "min() arg is an empty sequence")
  | x :: l' =>
      Return (fold_left (fun best y => if ltb y best then y else best) l' x)
  end.

Definition py_max (l : list K) : result K :=
  match l with
  | [] => Raise (Exc ValueError "max() arg is an empty sequence")
  | x :: l' =>
      Return (fold_left (fun best y => if ltb best y then y else best) l' x)
  end.

(** [dict.keys()] on a dictionary kept as an association list. *)
Definition keys (d : list (K * V)) : list K := map fst d.

Definition _time_frame (env : Env) (self : Self) : result Time :=
  bcbio_timings ← get_bcbio_timings env (_bcbio_log self);
  let steps := keys bcbio_timings in
  lo ← py_min steps;
  hi ← py_max steps;
  mret {| start := lo; end_ := hi; steps := steps |}.

(** The two dictionaries filled by [run]. *)
Definition Acc : Type := gmap string (list Row) * gmap string Hardware.

(** The body of the loop of [run] for one directory entry;
    [pandas.concat] of two frames is the first one's rows followed
    by the second one's. *)
Definition run_file (env : Env) (self : Self) (time_frame : Time)
    (acc : Acc) (collectl_file : string) : result Acc :=
  let '(data_frames, hardware_info) := acc in
  if negb (endswith collectl_file COLLECTL_SUFFIX) then Return acc
  else
    let collectl_path := path_join (_rawdir self) collectl_file in
    loaded ← load_collectl env collectl_path
               (start time_frame) (end_ time_frame);
    let '(data, hardware) := loaded in
    if (length data =? 0)%nat then Return acc
    else
      let host := host_key collectl_file in
      let hardware_info := <[host := hardware]> hardware_info in
      match data_frames !! host with
      | None => Return (<[host := data]> data_frames, hardware_info)
      | Some old =>
          Return (<[host := (old ++ data)%list]> data_frames, hardware_info)
      end.

Fixpoint run_loop (env : Env) (self : Self) (time_frame : Time)
    (files : list string) (acc : Acc) : result Acc :=
  match files with
  | [] => Return acc
  | f :: files' =>
      acc' ← run_file env self time_frame acc f;
      run_loop env self time_frame files' acc'
  end.

Definition run (env : Env) (self : Self)
  : result (gmap string (list Row) * gmap string Hardware * list K) :=
  time_frame ← _time_frame env self;
  listing ← os_listdir env (_rawdir self);
  acc ← run_loop env self time_frame (sorted listing) (∅, ∅);
  mret (fst acc, snd acc, steps time_frame).

End WithTypes.

Arguments Env : clear implicits.
Arguments Time : clear implicits.

End Parser.

(** ** BaseCloudProvider._execute_remote (provider/base.py) *)

Module BaseCloudProvider.

(** The file-like objects returned by [exec_command]. *)
Record ChannelFile : Type := { read : result string }.

(** A paramiko client, as far as [_execute_remote] uses it. *)
Record Connection : Type := {
  exec_command :
    string -> result (ChannelFile * ChannelFile * ChannelFile)
}.

(** A component of the returned pair. *)
Inductive slot : Type :=
| Nothing
| Output (s : string)
| Failure (e : exc).

Definition _execute_remote (connection : Connection) (command : string)
  : result (slot * slot) :=
  match exec_command connection command with
  | Raise exc =>
      if is_SSHException exc then Return (Nothing, Failure exc)
      else Raise exc
  | Return (_, stdout, stderr) =>
      out ← read stdout;
      err ← read stderr;
      mret (Output out, Output err)
  end.

End BaseCloudProvider.

(** ** Azure: AzureAPI.security_groups and Report.add_security_groups_info *)

Module Azure.

#[global] Instance pyval_eq_dec : EqDecision pyval.
Proof. solve_decision. Defined.

#[global] Instance pyval_countable : Countable pyval.
Proof.
  refine (inj_countable'
    (fun v => match v with
              | PyNone => inl tt
              | PyInt z => inr (inl z)
              | PyStr s => inr (inr s)
              end)
    (fun x => match x with
              | inl _ => PyNone
              | inr (inl z) => PyInt z
              | inr (inr s) => PyStr s
              end) _).
  intros []; reflexivity.
Defined.

(** *** Logging *)

Inductive level : Type := INFO | WARNING | ERROR.

Record LogRecord : Type := {
  levelname : level;
  msg : string;
  args : list (string * pyval)
}.

(** *** HTTP and XML *)

Record Response : Type := { status_code : Z; text : string }.

(** An [ElementTree] element: qualified tag, text, children. *)
#[local] Unset Elimination Schemes.
Inductive Element : Type :=
| Elem (tag : string) (text : option string) (children : list Element).

#[local] Set Elimination Schemes.

Definition tag_of (e : Element) : string :=
  match e with Elem t _ _ => t end.
Definition text_of (e : Element) : pyval :=
  match e with Elem _ (Some s) _ => PyStr s | Elem _ None _ => PyNone end.
Definition children_of (e : Element) : list Element :=
  match e with Elem _ _ c => c end.

(** The namespace map [self._ns] resolves the prefix [azure:]. *)
Definition azure_ns : string := "http://schemas.microsoft.com/windowsazure".
Definition azure (local : string) : string := "{" ++ azure_ns ++ "}" ++ local.

(** [element.findall(tag)]: the direct children with that tag. *)
Definition findall (e : Element) (tag : string) : list Element :=
  filter (fun c => tag_of c = tag) (children_of e).

(** [element.find(tag)]: the first such child, or [None]. *)
Definition find (e : Element) (tag : string) : option Element :=
  head (findall e tag).

(** The collaborators: [requests.get] and [ElementTree.fromstring]. *)
Record Env : Type := {
  requests_get :
    string -> string -> list (string * string) -> result Response;
  fromstring : string -> result Element
}.

Record AzureAPI : Type := {
  _subscription_id : string;
  _cert_file : string
}.

Definition _host (self : AzureAPI) : string :=
  "https://management.core.windows.net/" ++ _subscription_id self ++ "/".

(** [requests.compat.urljoin] of a base that ends in a slash and a
    relative path. *)
Definition urljoin (base rel : string) : string := base ++ rel.

Definition LOG {S} (put : LogRecord -> S -> S) (lv : level) (m : string)
    (a : list (string * pyval)) : M S unit :=
  modify (put {| levelname := lv; msg := m; args := a |}).

(** [LOG.exception] logs at level ERROR. *)
Definition security_groups {S} (put : LogRecord -> S -> S) (env : Env)
    (self : AzureAPI) : M S (gset pyval) :=
  let output : gset pyval := ∅ in
  response ← lift (requests_get env
                     (urljoin (_host self)
                        "services/networking/networksecuritygroups")
                     (_cert_file self)
                     [("Content-Type", "application/xml");
                      ("x-ms-version", "2014-10-01")]);
  if status_code response =? 200 then
    match fromstring env (text response) with
    | Return root =>
        let network_sg := findall root (azure "NetworkSecurityGroup") in
        mret (fold_left
                (fun output security_group =>
                   match find security_group (azure "Name") with
                   | Some name => output ∪ {[ text_of name ]}
                   | None => output
                   end)
                network_sg output)
    | Raise exc =>
        if is_ParseError exc
        then _ ← LOG put ERROR (exc_msg exc) []; mret output
        else raise exc
    end
  else
    _ ← LOG put ERROR "Failed to get security groups !" [];
    mret output.

(** *** The report under construction *)

Record Section : Type := {
  name : string;
  title : string;
  description : option string;
  fields : list (string * string);
  items : list pyval
}.

Record State : Type := {
  _information : list Section;
  log : list LogRecord
}.

Definition put_log (r : LogRecord) (s : State) : State :=
  {| _information := _information s; log := log s ++ [r] |}.

Definition has_section (n : string) (doc : list Section) : bool :=
  existsb (fun sec => String.eqb (name sec) n) doc.

Definition update_section (n : string) (f : Section -> Section)
    (doc : list Section) : list Section :=
  map (fun sec => if String.eqb (name sec) n then f sec else sec) doc.

(** Modelled from the spec: [objects.Report.add_section], which
    registers a new section at the end of the document and hands back
    a handle on it; a name already in use is a programming error. *)
Definition add_section (n t : string) (d : option string)
    (f : list (string * string)) : M State string :=
  fun s =>
    if has_section n (_information s)
    then (Raise (Exc ProgrammingError n), s)
    else (Return n,
          {| _information :=
               _information s ++
               [{| name := n; title := t; description := d;
                   fields := f; items := [] |}];
             log := log s |}).

(** Modelled from the spec: [add_field] on a section handle, which
    appends a column to the schema of the section. *)
Definition add_field (section : string) (n label : string) : M State unit :=
  modify (fun s =>
    {| _information :=
         update_section section
           (fun sec => {| name := name sec; title := title sec;
                          description := description sec;
                          fields := fields sec ++ [(n, label)];
                          items := items sec |})
           (_information s);
       log := log s |}).

(** Modelled from the spec: [add_items] on a section handle, which
    appends the rows, unchecked against the schema. *)
Definition add_items (section : string) (rows : list pyval) : M State unit :=
  modify (fun s =>
    {| _information :=
         update_section section
           (fun sec => {| name := name sec; title := title sec;
                          description := description sec;
                          fields := fields sec;
                          items := items sec ++ rows |})
           (_information s);
       log := log s |}).

(** [toolz.get_in([k1, k2], config)], [None] when a key is missing. *)
Definition get_in (k1 k2 : string) (config : gmap string (gmap string pyval))
  : pyval :=
  match config !! k1 with
  | Some inner => default PyNone (inner !! k2)
  | None => PyNone
  end.

Record Report : Type := {
  _cluster_config : gmap string (gmap string pyval);
  _api : AzureAPI
}.

Definition add_security_groups_info (env : Env) (self : Report)
  : M State unit :=
  sg_section ← add_section "sg" "Security groups" None [];
  _ ← add_field sg_section "sg" "Security Group";
  let expected_sg_name :=
    get_in "cluster" "security_group" (_cluster_config self) in
  security_groups ← security_groups put_log env (_api self);
  if bool_decide (security_groups = ∅) then
    LOG put_log WARNING "No security groups defined." []
  else
    _ ← (if bool_decide (expected_sg_name ∈ security_groups)
         then LOG put_log INFO "Expected security group %(sg_name)s exists."
                [("sg_name", expected_sg_name)]
         else LOG put_log WARNING
                "Security group %(sg_name)s does not exist."
                [("sg_name", expected_sg_name)]);
    add_items sg_section (elements security_groups).

End Azure.

(** * Further parts of the code *)

From stdpp Require sorting pretty.

(** ** Pack._remove_empty and Reconstitute.is_required_resource
       (provider/base.py) *)

Module Pack.

(** A nested argument: [None], a scalar, a list, a tuple, or a
    dictionary kept as the list of its items in iteration order (the
    keys of a dictionary are distinct). *)
#[local] Unset Elimination Schemes.
Inductive value : Type :=
| VNone
| VInt (z : Z)
| VStr (s : string)
| VList (l : list value)
| VTuple (l : list value)
| VDict (d : list (string * value)).
#[local] Set Elimination Schemes.

(** [x is not None] *)
Definition is_not_None (v : value) : bool :=
  match v with VNone => false | _ => true end.

Fixpoint _remove_empty (argument : value) : value :=
  let fix items (l : list value) : list value :=
    match l with
    | [] => []
    | item :: l' =>
        let item := _remove_empty item in
        if is_not_None item then item :: items l' else items l'
    end in
  let fix entries (d : list (string * value)) : list (string * value) :=
    match d with
    | [] => []
    | (key, value) :: d' =>
        let value := _remove_empty value in
        if is_not_None value then (key, value) :: entries d' else entries d'
    end in
  match argument with
  | VList l | VTuple l => VList (items l)
  | VDict d =>
      match entries d with
      | [] => VNone
      | output => VDict output
      end
  | _ => argument
  end.

(** A value in which no [None] and no empty dictionary is left, and no
    tuple either. *)
Fixpoint clean (v : value) : bool :=
  match v with
  | VNone => false
  | VInt _ | VStr _ => true
  | VList l => forallb clean l
  | VTuple _ => false
  | VDict d =>
      match d with
      | [] => false
      | _ => forallb (fun kv => clean (snd kv)) d
      end
  end.

End Pack.

Module Reconstitute.

Section WithItems.

Context {A : Type} `{EqDecision A}.

(** [context[:len(fresource)] == fresource] *)
Definition starts_with (context fresource : list A) : bool :=
  bool_decide (take (length fresource) context = fresource).

(** [fresources] is what [parallel.get("fresources")] returns: [None]
    when the key is missing. *)
Definition is_required_resource (context : list A)
    (fresources : option (list (list A))) : bool :=
  match fresources with
  | None | Some [] => true
  | Some l => existsb (starts_with context) l
  end.

End WithItems.

End Reconstitute.

(** ** BaseCloudProvider.run_script (provider/base.py) *)

Module RunScript.

Import BaseCloudProvider.

Definition _CHMOD (mode file : string) : string :=
  ("chmod " ++ mode ++ " " ++ file)%string.
Definition _HOME_DIR : string := "echo $HOME".
Definition _SCREEN (name script output : string) : string :=
  ("screen -d -m -S " ++ name ++ " bash -c '" ++ script ++ " &> "
     ++ output ++ "'")%string.

(** [str.strip()] *)
Fixpoint rstrip (s : string) : string :=
  match s with
  | EmptyString => EmptyString
  | String c s' =>
      match rstrip s' with
      | EmptyString => if is_space c then EmptyString else String c EmptyString
      | r => String c r
      end
  end.

Definition strip (s : string) : string := rstrip (lstrip s).

(** [s.rfind(c)], counting from [i] for the head of [s]; [best] is the
    answer when [c] does not occur. *)
Fixpoint rfind_from (c : ascii) (s : string) (i best : Z) : Z :=
  match s with
  | EmptyString => best
  | String x s' => rfind_from c s' (i + 1) (if Ascii.eqb x c then i else best)
  end.

Definition rfind (c : ascii) (s : string) : Z := rfind_from c s 0 (-1).

(** The loop of [genericpath._splitext] that skips the leading dots of
    the file name: does a character other than a dot come before
    [dotIndex]? *)
Fixpoint has_name (p : string) (steps : nat) (filenameIndex : Z) : bool :=
  match steps with
  | O => false
  | S steps' =>
      match String.get (Z.to_nat filenameIndex) p with
      | Some c =>
          if negb (Ascii.eqb c ".") then true
          else has_name p steps' (filenameIndex + 1)
      | None => false
      end
  end.

(** [os.path.splitext] *)
Definition splitext (p : string) : string * string :=
  let sepIndex := rfind "/" p in
  let dotIndex := rfind "." p in
  if (sepIndex <? dotIndex)
     && has_name p (Z.to_nat (dotIndex - (sepIndex + 1))) (sepIndex + 1)
  then (substring 0 (Z.to_nat dotIndex) p,
        substring (Z.to_nat dotIndex)
          (String.length p - Z.to_nat dotIndex) p)
  else (p, EmptyString).

(** What the frontend sees, oldest first. *)
Inductive event : Type :=
| Exec (command : string)
| Put (localpath remotepath : string)
| CloseClient.

(** The collaborators: elasticluster, which leads from the
    configuration to a client connected to the frontend node
    ([load_config], [get_cluster], [get_frontend_node], [connect]), and
    the SFTP channel of that client. *)
Record Env : Type := {
  connect_frontend : string -> string -> result Connection;
  sftp_put : Connection -> string -> string -> option exc
}.

Definition emit (e : event) : M (list event) unit :=
  modify (fun t => (t ++ [e])%list).

(** A call of [_execute_remote] on the client. *)
Definition execute (client : Connection) (command : string)
  : M (list event) (slot * slot) :=
  _ ← emit (Exec command);
  lift (_execute_remote client command).

(** [x.strip()] on the first component of the pair. *)
Definition slot_strip (x : slot) : result string :=
  match x with
  | Output s => Return (strip s)
  | _ => Raise (Exc AttributeError "strip")
  end.

Definition run_script (env : Env) (cluster config script : string)
  : M (list event) unit :=
  client ← lift (connect_frontend env cluster config);
  home ← execute client _HOME_DIR;
  let home_dir := fst home in
  let script_name := basename script in
  home_dir ← lift (slot_strip home_dir);
  let remote_file := path_join home_dir script_name in
  let ouput_file := (fst (splitext remote_file) ++ ".log")%string in
  let screen_name := fst (splitext script_name) in
  _ ← emit (Put script remote_file);
  _ ← match sftp_put env client script remote_file with
      | Some e => raise e
      | None => mret tt
      end;
  _ ← execute client (_CHMOD "a+x" remote_file);
  _ ← execute client (_SCREEN screen_name remote_file ouput_file);
  emit CloseClient.

End RunScript.

(** ** AzureAPI.cloud_services (provider/azure/common.py) *)

Module AzureServices.

Import Azure.

Definition cloud_services {S} (put : LogRecord -> S -> S) (env : Azure.Env)
    (self : AzureAPI) : M S (gset pyval) :=
  let output : gset pyval := ∅ in
  response ← lift (requests_get env
                     (urljoin (_host self) "services/hostedservices")
                     (_cert_file self)
                     [("Content-Type", "application/xml");
                      ("x-ms-version", "2014-10-01")]);
  if status_code response =? 200 then
    match fromstring env (text response) with
    | Return root =>
        mret (fold_left
                (fun output host =>
                   match find host (azure "ServiceName") with
                   | Some name => output ∪ {[ text_of name ]}
                   | None => output
                   end)
                (findall root (azure "HostedService")) output)
    | Raise exc =>
        if is_ParseError exc
        then _ ← LOG put ERROR (exc_msg exc) []; mret output
        else raise exc
    end
  else
    _ ← LOG put ERROR "Failed to get cloud services!" [];
    mret output.

End AzureServices.

(** ** AzureProvider.upload_biodata (provider/azure/azure_provider.py) *)

Module AzureProvider.

(** How a call ends: normally, with an exception of the collaborators,
    or with the [UnboundLocalError] Python raises when a local variable
    is read before it was assigned. *)
Inductive outcome (A : Type) : Type :=
| Normal (a : A)
| Failed (e : exc)
| UnboundLocalError (variable : string).
Arguments Normal {A} a.
Arguments Failed {A} e.
Arguments UnboundLocalError {A} variable.

Inductive event : Type :=
| Info (msg : string) (args : list (string * string))
| Upload (path filename container : string).

(** The local files and what was logged and uploaded, oldest first. *)
Record Host : Type := { files : gset string; events : list event }.

(** The collaborators: [common_utils.compress], which may write to the
    local disk, and the storage manager [AzureBlob], whose calls go to
    the storage account and leave the local files alone. *)
Record Env : Type := {
  compress : list string -> gset string -> result string * gset string;
  parse_remote : string -> result (string * string);
  exists_ : string -> string -> string -> result bool;
  upload : string -> string -> string -> string -> option exc
}.

(** [self._biodata_template.format(build=genome, target=target)] *)
Definition _biodata_template (build target : string) : string :=
  ("https://bcbio.blob.core.windows.net/biodata/prepped/" ++ build ++ "/"
     ++ build ++ "-" ++ target ++ ".tar.gz")%string.

Definition log_event (e : event) (h : Host) : Host :=
  {| files := files h; events := (events h ++ [e])%list |}.

(** The statements of the [try] block that follow the assignment of
    [archive]. *)
Definition upload_body (env : Env) (genome target biodata archive : string)
    (context : string) (h : Host) : outcome unit * Host :=
  match parse_remote env biodata with
  | Raise e => (Failed e, h)
  | Return (container, blob) =>
      match exists_ env container blob context with
      | Raise e => (Failed e, h)
      | Return true =>
          (Normal tt,
           log_event (Info "The %(biodata)r build already exist"
                        [("biodata", blob)]) h)
      | Return false =>
          let h := log_event
                     (Info ("Upload pre-prepared genome data: %(genome)s, "
                            ++ "%(target)s:")%string
                        [("genome", genome); ("target", target)]) h in
          let h := log_event (Upload archive blob container) h in
          match upload env archive blob container context with
          | Some e => (Failed e, h)
          | None => (Normal tt, h)
          end
      end
  end.

(** The [finally] block, entered with [archive] assigned. *)
Definition remove_archive (archive : string) (h : Host) : Host :=
  if bool_decide (archive ∈ files h)
  then {| files := files h ∖ {[ archive ]}; events := events h |}
  else h.

(** When [compress] raises, [archive] was never assigned and the
    [finally] block fails on reading it; its exception replaces the one
    of [compress]. *)
Definition upload_biodata (env : Env) (genome target : string)
    (source : list string) (context : string) (h : Host)
  : outcome unit * Host :=
  let biodata := _biodata_template genome target in
  match compress env source (files h) with
  | (Raise _, fs) =>
      (UnboundLocalError "archive", {| files := fs; events := events h |})
  | (Return archive, fs) =>
      let '(r, h) := upload_body env genome target biodata archive context
                       {| files := fs; events := events h |} in
      (r, remove_archive archive h)
  end.

End AzureProvider.

(** ** Pack._local_directories (provider/base.py) *)

Module PackDirs.

Import Pack.

Inductive fault : Type :=
| KeyError_ (key : string)
| TypeError_
| AttributeError_ (attribute : string)
| NotImplementedError_.

Inductive answer (A : Type) : Type :=
| Ok (a : A)
| Err (f : fault).
Arguments Ok {A} a.
Arguments Err {A} f.

Definition answer_bind {A B} (f : A -> answer B) (m : answer A) : answer B :=
  match m with Ok a => f a | Err e => Err e end.

#[global] Instance answer_ret : MRet answer := @Ok.
#[global] Instance answer_mbind : MBind answer := @answer_bind.

(** [d.get(key)] on the items of a dictionary. *)
Fixpoint lookup_item (key : string) (d : list (string * value))
  : option value :=
  match d with
  | [] => None
  | (k, v) :: d' => if String.eqb k key then Some v else lookup_item key d'
  end.

(** [x[key]] for a string [key]. *)
Definition getitem (x : value) (key : string) : answer value :=
  match x with
  | VDict d =>
      match lookup_item key d with
      | Some v => Ok v
      | None => Err (KeyError_ key)
      end
  | _ => Err TypeError_
  end.

(** [toolz.get_in(keys, coll)]: [None] when a lookup on the way raises
    [KeyError], [IndexError] or [TypeError]. *)
Fixpoint get_in (keys : list string) (coll : value) : value :=
  match keys with
  | [] => coll
  | key :: keys' =>
      match getitem coll key with
      | Ok v => get_in keys' v
      | Err _ => VNone
      end
  end.

(** [needle in s] for strings. *)
Fixpoint is_prefix (p s : string) : bool :=
  match p with
  | EmptyString => true
  | String a p' =>
      match s with
      | String b s' => Ascii.eqb a b && is_prefix p' s'
      | EmptyString => false
      end
  end.

Fixpoint is_substring (needle s : string) : bool :=
  is_prefix needle s ||
  match s with
  | EmptyString => false
  | String _ s' => is_substring needle s'
  end.

Definition is_str (key : string) (v : value) : bool :=
  match v with VStr s => String.eqb s key | _ => false end.

(** [key in x] for a string [key]. *)
Definition contains (x : value) (key : string) : answer bool :=
  match x with
  | VDict d => Ok (bool_decide (is_Some (lookup_item key d)))
  | VStr s => Ok (is_substring key s)
  | VList l | VTuple l => Ok (existsb (is_str key) l)
  | VNone | VInt _ => Err TypeError_
  end.

(** [x.keys()] *)
Definition keys (x : value) : answer (list string) :=
  match x with
  | VDict d => Ok (map fst d)
  | _ => Err (AttributeError_ "keys")
  end.

(** [alt_keys == [build]] for the list of strings that [keys()] returns
    in Python 2: the list has one element and [build] is that string. *)
Definition keys_are (alt_keys : list string) (build : value) : bool :=
  match alt_keys with
  | [key] => is_str key build
  | _ => false
  end.

(** [s.split("/")] *)
Fixpoint split (s : string) : list string :=
  match s with
  | EmptyString => [EmptyString]
  | String c s' =>
      if Ascii.eqb c "/" then EmptyString :: split s'
      else match split s' with
           | part :: parts => String c part :: parts
           | [] => [String c EmptyString]
           end
  end.

(** [x.split(os.path.sep)] *)
Definition split_path (x : value) : answer (list string) :=
  match x with
  | VStr s => Ok (split s)
  | _ => Err (AttributeError_ "split")
  end.

(** ["/".join(parts)] *)
Fixpoint join (parts : list string) : string :=
  match parts with
  | [] => EmptyString
  | [part] => part
  | part :: parts' => (part ++ "/" ++ join parts')%string
  end.

(** The loop [while parts: if parts.pop() == build: break], on the
    parts in reverse: what is left of them when the loop ends. *)
Fixpoint pop_until (build : value) (reversed : list string) : list string :=
  match reversed with
  | [] => []
  | part :: rest =>
      if is_str part build then rest else pop_until build rest
  end.

(** The test on alternative references at the head of
    [_local_directories]. *)
Definition check_alt (data : value) : answer unit :=
  reference ← getitem data "reference";
  has_alt ← contains reference "alt";
  if (has_alt : bool) then
    alt ← getitem reference "alt";
    alt_keys ← keys alt;
    build ← getitem data "genome_build";
    if negb (keys_are alt_keys build)
    then Err NotImplementedError_ else Ok tt
  else Ok tt.

(** [data] is the second component of [config_utils.get_dataarg(args)].
    The loop reads [data["genome_build"]] in each of its rounds, of
    which there is at least one. *)
Definition _local_directories (data : value)
  : answer (value * option string) :=
  let work_dir := get_in ["dirs"; "work"] data in
  _ ← check_alt data;
  parts ← split_path (get_in ["reference"; "fasta"; "base"] data);
  build ← getitem data "genome_build";
  let parts := rev (pop_until build (rev parts)) in
  let biodata_dir := match parts with [] => None | _ => Some (join parts) end in
  Ok (work_dir, biodata_dir).

End PackDirs.

(** ** Concrete inputs used by the examples below *)

Module Fixtures.

Import Collector.

Definition web1_remote : string :=
  "/var/log/collectl/web1-20230101-000000.raw.gz".
Definition web1_local : string := "/tmp/raw/web1-20230101-000000.raw.gz".

(** One row of [stat]: the fields in the order of the format. *)
Definition web1_row : list string := ["100"; "1700000005"; "1700000007"; web1_remote].

Definition web1_info : FileInfo :=
  {| atime := 100; mtine := 1700000005; size := 1700000007;
     path := web1_remote |}.

(** A cache entry the diff rule finds equal to [web1_info]: its
    modification time is the second field of the row and its size the
    third. *)
Definition cache_equal : gmap string LocalStat :=
  {[ web1_local := {| st_mtime := 17000000055 # 10; st_size := 1700000007 |} ]}.

(** A remote telemetry file as [stat] sees it. *)
Record RemoteFile : Type := {
  rf_size : Z;
  rf_atime : Z;
  rf_mtime : Z;
  rf_name : string
}.

(** Modelled from the spec: the row [utils.SSHClient.stat] returns for
    a file, one field per element of [format] and in its order; as in
    [stat(1)], [%s] is the size in bytes, [%X] the time of the last
    access, [%Y] the time of the last modification, both in seconds
    since the Epoch, and [%n] the name. *)
Definition stat_field (f : RemoteFile) (directive : string) : string :=
  if String.eqb directive "%s" then pretty.pretty (rf_size f)
  else if String.eqb directive "%X" then pretty.pretty (rf_atime f)
  else if String.eqb directive "%Y" then pretty.pretty (rf_mtime f)
  else if String.eqb directive "%n" then rf_name f
  else directive.

Definition stat_row (format : list string) (f : RemoteFile) : list string :=
  map (stat_field f) format.

(** The file [web1_row] is the row of. *)
Definition web1_file : RemoteFile :=
  {| rf_size := 100; rf_atime := 1700000005; rf_mtime := 1700000007;
     rf_name := web1_remote |}.

(** A cache that holds a copy of [web1_file] of the same size and the
    same modification time. *)
Definition cache_identical : gmap string LocalStat :=
  {[ web1_local := {| st_mtime := inject_Z 1700000007; st_size := 100 |} ]}.

Definition node (ip : string) : Node :=
  {| preferred_ip := Some ip; image_user := "ubuntu";
     user_key_private := "/home/u/.ssh/id_rsa" |}.

Definition self_of (ns : list Node) : Self :=
  {| _output := "/tmp/raw";
     _cluster := {| nodes := [("compute", ns)];
                    known_hosts_file := "/tmp/known_hosts" |} |}.

Definition unreachable : exc := Exc SSHException "Unable to connect".

(** A fleet in which every host but [down] answers, every answering
    host holds the one file [web1_remote], no Lustre device is
    mounted, and ICEL knows a stack with a NAT device and one server. *)
Definition fleet (down : string) : Env :=
  {| net_connect c _ :=
       if String.eqb (host c) down then Some unreachable else None;
     net_stat _ _ _ := Return [web1_row];
     net_fetch _ _ := Return 100;
     net_disk_space _ _ _ := Return [];
     icel_stack_name _ := Return PyNone;
     icel_instances _ :=
       Return [(NATDevice, "54.0.0.1"); ("mgs", "10.0.0.5")] |}.

Definition world_of (c : gmap string LocalStat) : World :=
  {| cache := c; trace := [] |}.

(** Three nodes A, B and C. *)
Definition abc : Self :=
  self_of [node "10.0.0.1"; node "10.0.0.2"; node "10.0.0.3"].

(** The same fleet with a Lustre device that ICEL resolves to a stack. *)
Definition fleet_lustre : Env :=
  {| net_connect := net_connect (fleet "");
     net_stat := net_stat (fleet "");
     net_fetch := net_fetch (fleet "");
     net_disk_space _ _ _ := Return ["fs-1234:/scratch"];
     icel_stack_name _ := Return (PyStr "icel-stack");
     icel_instances := icel_instances (fleet "") |}.

(** Connections for [_execute_remote]. *)
Import BaseCloudProvider.

Definition stream (s : string) : ChannelFile := {| read := Return s |}.

Definition conn_ok : Connection :=
  {| exec_command _ := Return (stream "", stream "/home/ubuntu", stream "") |}.

Definition session_closed : exc := Exc SSHException "SSH session not active".
Definition conn_closed : Connection :=
  {| exec_command _ := Raise session_closed |}.

Definition reset_by_peer : exc := Exc SocketError "Connection reset by peer".
Definition conn_reset : Connection :=
  {| exec_command _ := Raise reset_by_peer |}.

Definition conn_stalled : Connection :=
  {| exec_command _ :=
       Return (stream "", {| read := Raise reset_by_peer |}, stream "") |}.

(** Caches for [Parser.run]: timestamps are integers, a row is a
    timestamp with a reading, the hardware facts are a string. *)
Import Parser.

Definition parser_self : Parser.Self :=
  {| _bcbio_log := "/tmp/bcbio-nextgen.log"; _rawdir := "/tmp/raw" |}.

Definition web1_day1 : string := "web1-20230101-000000.raw.gz".
Definition web1_day2 : string := "web1-20230102-000000.raw.gz".
Definition db1_day1 : string := "db1-20230101-000000.raw.gz".

(** What the captures hold, before the window is applied. *)
Definition capture (path : string) : list (Z * string) :=
  if String.eqb path "/tmp/raw/web1-20230101-000000.raw.gz"
  then [(5, "early"); (10, "r1"); (20, "r2")]
  else if String.eqb path "/tmp/raw/web1-20230102-000000.raw.gz"
  then [(40, "r3"); (60, "late")]
  else [(70, "idle")].

(** A decoder that honours the window it is given. *)
Definition decode (path : string) (lo hi : Z)
  : result (list (Z * string) * string) :=
  Return (filter (fun r => Is_true ((lo <=? fst r) && (fst r <=? hi)))
            (capture path),
          ("cpus of " ++ path)%string).

(** A timing log as [get_bcbio_timings] builds it: timestamp to step. *)
Definition timings : list (Z * string) := [(10, "a"); (50, "b"); (30, "c")].

Definition cache_env : Parser.Env Z string (Z * string) string :=
  {| get_bcbio_timings _ := Return timings;
     os_listdir _ := Return [web1_day2; "notes.txt"; db1_day1; web1_day1];
     load_collectl := decode |}.

(** The same cache with a capture of [db1] that cannot be decoded. *)
Definition bad_capture : exc := Exc IOError "Not a gzipped file".

Definition corrupt_env : Parser.Env Z string (Z * string) string :=
  {| get_bcbio_timings _ := Return timings;
     os_listdir _ := Return [web1_day2; "notes.txt"; db1_day1; web1_day1];
     load_collectl path lo hi :=
       if String.eqb path "/tmp/raw/db1-20230101-000000.raw.gz"
       then Raise bad_capture else decode path lo hi |}.

(** A cache next to a timing log without any checkpoint. *)
Definition silent_env : Parser.Env Z string (Z * string) string :=
  {| get_bcbio_timings _ := Return [];
     os_listdir := os_listdir cache_env;
     load_collectl := load_collectl cache_env |}.

(** An Azure subscription whose management API is out of service. *)
Import Azure.


Definition azure_report : Report :=
  {| _cluster_config :=
       {[ "cluster" := {[ "security_group" := PyStr "bcbio" ]} ]};
     _api := {| _subscription_id := "0000-1111";
                _cert_file := "/home/u/.bcbio/azure.pem" |} |}.

Definition fresh : State := {| _information := []; log := [] |}.

End Fixtures.

(** ** Vocabulary of the statements about the Collector *)

Module CollectorSpec.

Import Collector.

(** The session [run] opens for a node of the cluster. *)
Definition session_for (self : Self) (n : Node) : SSHClient :=
  {| host := ip_of n; user := image_user n; port := PyNone;
     missing_host_key_policy := RejectPolicy;
     host_keys := known_hosts_file (_cluster self) |}.

(** An event that is neither a transfer nor a session that trusts
    unknown hosts or goes through a bastion. *)
Definition plain (ev : event) : Prop :=
  match ev with
  | Connect c b => missing_host_key_policy c = RejectPolicy /\ b = PyNone
  | Download _ _ _ _ => False
  | _ => True
  end.

(** A computation that only appends [plain] events and leaves the
    cache as it found it. *)
Definition inert {A} (m : M World A) : Prop :=
  forall w, exists evs,
    snd (m w) = {| cache := cache w; trace := trace w ++ evs |} /\
    Forall plain evs.

End CollectorSpec.

(** ** Vocabulary of the statements about the Parser *)

Module ParserSpec.

Import Parser.

(** A string of decimal digits. *)
Fixpoint all_digits (s : string) : bool :=
  match s with
  | EmptyString => true
  | String c s' => is_digit c && all_digits s'
  end.

(** The file name the collectl daemon gives to a capture. *)
Definition capture_name (hostname date time : string) : string :=
  (hostname ++ "-" ++ date ++ "-" ++ time ++ ".raw.gz")%string.

Section WithTypes.

Context {K V Row Hardware : Type}.
Variable env : Env K V Row Hardware.
Variable self : Self.
Variable time_frame : Time K.

(** What [load_collectl] yields for a directory entry. *)
Definition loaded (file : string) : result (list Row * Hardware) :=
  load_collectl env (path_join (_rawdir self) file)
    (start time_frame) (end_ time_frame).

(** The rows a directory entry contributes: those decoded from it
    when it carries the telemetry suffix, none otherwise. *)
Definition decoded (file : string) : list Row :=
  if endswith file COLLECTL_SUFFIX then
    match loaded file with
    | Return (data, _) => data
    | Raise _ => []
    end
  else [].

(** The rows of all entries of [files] that belong to [host], in
    the order of [files]. *)
Definition host_rows (host : string) (files : list string) : list Row :=
  concat (map decoded (filter (fun f => host_key f = host) files)).

(** The rows recorded for a host so far. *)
Definition rows_of (data_frames : gmap string (list Row)) (host : string)
  : list Row :=
  default [] (data_frames !! host).

(** The state of the two dictionaries between two iterations: no
    host is recorded with an empty frame, and both dictionaries
    know the same hosts. *)
Definition well_formed (acc : gmap string (list Row) * gmap string Hardware)
  : Prop :=
  (forall host rows, fst acc !! host = Some rows -> rows <> []) /\
  dom (fst acc) = dom (snd acc).

(** A directory entry on which the decoder fails. *)
Definition corrupt (file : string) : Prop :=
  endswith file COLLECTL_SUFFIX = true /\
  exists e, loaded file = Raise e.

(** A directory entry the loop gets past. *)
Definition readable (file : string) : Prop :=
  endswith file COLLECTL_SUFFIX = true ->
  exists data hardware, loaded file = Return (data, hardware).

End WithTypes.

End ParserSpec.

(** ** Vocabulary of the statements about the Azure report *)

Module AzureSpec.

Import Azure.

(** The response to the query of [security_groups]. *)
Definition queried (env : Env) (api : AzureAPI) : result Response :=
  requests_get env
    (urljoin (_host api) "services/networking/networksecuritygroups")
    (_cert_file api)
    [("Content-Type", "application/xml"); ("x-ms-version", "2014-10-01")].

(** The section [add_security_groups_info] registers, before any item
    is added. *)
Definition sg_section : Section :=
  {| name := "sg"; title := "Security groups"; description := None;
     fields := [("sg", "Security Group")]; items := [] |}.


End AzureSpec.

(** ** Vocabulary of the statements about the events of a run *)

Module CollectorTrace.

Import Collector.

Local Open Scope list_scope.

(** A computation that appends events, all of them in [P], to the trace. *)
Definition emits {A} (P : event -> Prop) (m : M World A) : Prop :=
  forall w, exists evs,
    trace (snd (m w)) = trace w ++ evs /\ Forall P evs.

Definition is_close (ev : event) : Prop :=
  match ev with Close _ => True | _ => False end.

Definition is_agent (ev : event) : Prop :=
  match ev with AgentAdd _ | AgentRemove _ => True | _ => False end.

Definition is_download (ev : event) : Prop :=
  match ev with Download _ _ _ _ => True | _ => False end.

(** The session [_collect] opens for a host. *)
Definition collect_session (self : Self) (h u : string) (b : pyval)
  : SSHClient :=
  {| host := h; user := u; port := b;
     missing_host_key_policy := RejectPolicy;
     host_keys := known_hosts_file (_cluster self) |}.

(** A row of [stat] the diff rule does not select: the descriptor
    [_collectl_files] builds from it compares equal to the cached file
    of that name, that is, the truncated local modification time is the
    second field of the row and the local size its third. *)
Definition unselected (self : Self) (fs : gmap string LocalStat)
    (row : list string) : Prop :=
  exists info,
    _collectl_files_item row = Return info /\
    _is_different fs (path_join (_output self) (basename (path info))) info
      = Return false.

End CollectorTrace.

(** ** Further concrete inputs *)

Module Fixtures2.

Import Collector Fixtures.

(** A fleet whose ICEL stack lists two servers and no NAT device. *)
Definition fleet_no_nat : Env :=
  {| net_connect := net_connect fleet_lustre;
     net_stat := net_stat fleet_lustre;
     net_fetch := net_fetch fleet_lustre;
     net_disk_space := net_disk_space fleet_lustre;
     icel_stack_name := icel_stack_name fleet_lustre;
     icel_instances _ := Return [("mgs", "10.0.0.5"); ("oss0", "10.0.0.6")] |}.

Definition one_node : Self := self_of [node "10.0.0.1"].

End Fixtures2.

(** ** Further vocabulary of the statements about the Parser *)

Module ParserSpec2.

Import Parser ParserSpec.

Local Open Scope list_scope.

(** The line feed: a name that ends in one still has its timestamp
    recognised by [re.sub], which leaves the line feed in place. *)
Definition newline : string := String "010" "".

(** A name that carries a capture timestamp: it reads
    [<hostname>-<8 digits>-<6 digits>.raw.gz], possibly followed by one
    line feed. *)
Definition ends_in_timestamp (s : string) : Prop :=
  exists hostname date time rest,
    String.length date = 8%nat /\ all_digits date = true /\
    String.length time = 6%nat /\ all_digits time = true /\
    (rest = "" \/ rest = newline) /\
    s = (capture_name hostname date time ++ rest)%string.

(** The order [sorted] sorts by. *)
Definition str_le (x y : string) : Prop := String.leb x y = true.

Section WithTypes.

Context {K V Row Hardware : Type}.
Variable env : Env K V Row Hardware.
Variable self : Self.
Variable time_frame : Time K.

(** The hardware facts a directory entry contributes: those decoded
    from it when it carries the telemetry suffix and holds at least one
    row. *)
Definition contributed (file : string) : option Hardware :=
  if endswith file COLLECTL_SUFFIX then
    match loaded env self time_frame file with
    | Return (_ :: _, hardware) => Some hardware
    | _ => None
    end
  else None.

(** The facts contributed by the last entry of [files] that belongs to
    [host] and contributes any. *)
Definition host_hardware (host : string) (files : list string)
  : option Hardware :=
  last (omap contributed (filter (fun f => host_key f = host) files)).

End WithTypes.

(** The cache of [Fixtures.cache_env], listed in another order. *)
Definition reordered_env : Parser.Env Z string (Z * string) string :=
  {| get_bcbio_timings := get_bcbio_timings Fixtures.cache_env;
     os_listdir _ :=
       Return [Fixtures.web1_day1; Fixtures.db1_day1; Fixtures.web1_day2;
               "notes.txt"];
     load_collectl := load_collectl Fixtures.cache_env |}.

End ParserSpec2.

(** ** Vocabulary of the statements about [Pack._remove_empty] *)

Module PackSpec.

Import Pack.

(** The two loops of [_remove_empty]: the processed items that are not
    [None], in their order. *)
Fixpoint kept_items (l : list value) : list value :=
  match l with
  | [] => []
  | item :: l' =>
      if is_not_None (_remove_empty item)
      then _remove_empty item :: kept_items l' else kept_items l'
  end.

Fixpoint kept_entries (d : list (string * value)) : list (string * value) :=
  match d with
  | [] => []
  | (key, value) :: d' =>
      if is_not_None (_remove_empty value)
      then (key, _remove_empty value) :: kept_entries d'
      else kept_entries d'
  end.

(** A run configuration with holes. *)
Definition sparse : value :=
  VDict [("algorithm", VDict [("aligner", VStr "bwa"); ("quality", VNone)]);
         ("files", VTuple [VStr "a.fq"; VNone; VList []; VDict []]);
         ("metadata", VDict [("batch", VNone)])].

End PackSpec.

(** ** Frontends for [run_script] *)

Module Fixtures3.

Import BaseCloudProvider RunScript Fixtures.

(** A frontend that answers [echo $HOME] and then drops the session. *)
Definition dropping : Connection :=
  {| exec_command command :=
       if String.eqb command _HOME_DIR
       then Return (stream "", stream ("/home/ubuntu" ++ String "010" ""),
                    stream "")
       else Raise session_closed |}.

Definition frontend (client : Connection) : RunScript.Env :=
  {| connect_frontend _ _ := Return client; sftp_put _ _ _ := None |}.

End Fixtures3.

(** ** Further vocabulary of the statements about the Azure queries *)

Module AzureSpec2.

Import Azure AzureSpec.

Local Open Scope list_scope.

(** The response to the query of [cloud_services]. *)
Definition queried_services (env : Azure.Env) (api : AzureAPI)
  : result Response :=
  requests_get env (urljoin (_host api) "services/hostedservices")
    (_cert_file api)
    [("Content-Type", "application/xml"); ("x-ms-version", "2014-10-01")].

(** The texts of the first child tagged [inner] of every child of
    [root] tagged [outer]. *)
Definition named (root : Element) (outer inner : string) (v : pyval) : Prop :=
  exists e name,
    e ∈ findall root (azure outer) /\
    find e (azure inner) = Some name /\
    text_of name = v.

(** The record logged once the security groups are known. *)
Definition sg_record (expected : pyval) (groups : gset pyval) : LogRecord :=
  if bool_decide (expected ∈ groups)
  then {| levelname := INFO;
          msg := "Expected security group %(sg_name)s exists.";
          args := [("sg_name", expected)] |}
  else {| levelname := WARNING;
          msg := "Security group %(sg_name)s does not exist.";
          args := [("sg_name", expected)] |}.

(** A subscription with two security groups, one of them unnamed, and
    one hosted service. *)
Definition listing : Element :=
  Elem (azure "NetworkSecurityGroups") None
    [Elem (azure "NetworkSecurityGroup") None
       [Elem (azure "Name") (Some "bcbio") []; Elem (azure "Location") (Some "west") []];
     Elem (azure "NetworkSecurityGroup") None [];
     Elem (azure "HostedService") None [Elem (azure "ServiceName") (Some "svc") []]].

Definition serving : Azure.Env :=
  {| requests_get _ _ _ := Return {| status_code := 200; text := "<xml/>" |};
     fromstring _ := Return listing |}.

(** A subscription that answers with 204, a success other than 200. *)
Definition no_content : Azure.Env :=
  {| requests_get _ _ _ := Return {| status_code := 204; text := "" |};
     fromstring _ := Return listing |}.

End AzureSpec2.

(** ** A storage account for [upload_biodata] *)

Module Fixtures4.

Import AzureProvider.

(** [compress] writes the archive next to the sources; the container
    does not hold the build yet. *)
Definition empty_account : AzureProvider.Env :=
  {| compress _ fs := (Return "/tmp/biodata.tar.gz",
                       fs ∪ {[ "/tmp/biodata.tar.gz" ]});
     parse_remote _ := Return ("biodata", "prepped/hg19/hg19-bwa.tar.gz");
     exists_ _ _ _ := Return false;
     upload _ _ _ _ := Some (Exc IOError "connection lost") |}.

(** A disk on which [compress] cannot write. *)
Definition full_disk : AzureProvider.Env :=
  {| compress _ fs := (Raise (Exc OSError "No space left on device"), fs);
     parse_remote := parse_remote empty_account;
     exists_ := exists_ empty_account;
     upload := upload empty_account |}.

Definition laptop : Host :=
  {| files := {[ "/data/hg19/seq/hg19.fa" ]}; events := [] |}.

End Fixtures4.

(** ** A run configuration for [_local_directories] *)

Module Fixtures5.

Import Pack.

Definition hg19_run : value :=
  VDict [("dirs", VDict [("work", VStr "/mnt/work")]);
         ("genome_build", VStr "hg19");
         ("reference",
          VDict [("fasta",
                  VDict [("base", VStr "/data/genomes/hg19/seq/hg19.fa")])])].

End Fixtures5.

(** * Properties *)

Local Open Scope list_scope.

Import Collector.

(** ** The diff rule *)

Lemma is_different_spec (fs : gmap string LocalStat) (p : string)
    (remote : FileInfo) :
  _is_different fs p remote =
  Return (match fs !! p with
          | None => true
          | Some st => negb (int_of_float (st_mtime st) =? mtine remote)
                       || negb (st_size st =? size remote)
          end).
Proof.
  unfold _is_different, os_path_exists, os_path_getmtime, os_path_getsize.
  destruct (fs !! p) as [st|] eqn:E.
  - rewrite bool_decide_true by eauto. simpl.
    destruct (int_of_float (st_mtime st) =? mtine remote); simpl; [|done].
    destruct (st_size st =? size remote); done.
  - rewrite bool_decide_false; [done|]. intros [? ?]; discriminate.
Qed.

(** The loop body of [_collect] leaves the world alone when the diff
    rule finds nothing to do. *)
Lemma collect_file_skip env self c row info w :
  _collectl_files_item row = Return info ->
  _is_different (cache w)
    (path_join (_output self) (basename (path info))) info = Return false ->
  _collect_file env self c row w = (Return tt, w).
Proof.
  intros Hrow Hsame. unfold _collect_file.
  unfold mbind, M_mbind, bind, lift, get. rewrite Hrow. simpl.
  rewrite Hsame. reflexivity.
Qed.

(** The decision [_is_different] on a descriptor: it answers "download"
    exactly when no local file of that name exists, or the local
    modification time truncated to whole seconds differs from the field
    [mtine] of the descriptor, or the local size differs from its field
    [size]; the loop of [_collect] passes over a file for which it
    answers "no". *)
Lemma sync_decision_spec (fs : gmap string LocalStat) (p : string)
    (remote : FileInfo) :
  (exists b, _is_different fs p remote = Return b /\
     (b = true <->
        fs !! p = None \/
        exists st, fs !! p = Some st /\
          (int_of_float (st_mtime st) <> mtine remote \/
           st_size st <> size remote)))
  /\ (forall env self c row w,
        _collectl_files_item row = Return remote ->
        p = path_join (_output self) (basename (path remote)) ->
        fs = cache w ->
        _is_different fs p remote = Return false ->
        _collect_file env self c row w = (Return tt, w)).
Proof.
  split.
  - rewrite is_different_spec. eexists; split; [reflexivity|].
    destruct (fs !! p) as [st|].
    + rewrite orb_true_iff, !negb_true_iff, !Z.eqb_neq. split.
      * intros H. right. exists st. split; [done|]. exact H.
      * intros [H|(st' & E & H)]; [discriminate|]. by inversion E; subst.
    + split; [by left | done].
  - intros env self c row w Hrow -> -> Hsame.
    by apply collect_file_skip with (info := remote).
Qed.

Lemma sync_decision_spec_example :
  _collect_file (Fixtures.fleet "") (Fixtures.self_of []) 
    {| host := "10.0.0.1"; user := "ubuntu"; port := PyNone;
       missing_host_key_policy := RejectPolicy; host_keys := "" |}
    Fixtures.web1_row (Fixtures.world_of Fixtures.cache_equal)
  = (Return tt, Fixtures.world_of Fixtures.cache_equal).
Proof.
  apply (proj2 (sync_decision_spec Fixtures.cache_equal Fixtures.web1_local
                  Fixtures.web1_info)).
  - reflexivity.
  - reflexivity.
  - reflexivity.
  - vm_compute. reflexivity.
Defined.


(** ** Sessions and transfers of a run *)

Import CollectorSpec.

Section Inert.

Lemma inert_ret {A} (a : A) : inert (mret a).
Proof. intros [c t]. exists []. by rewrite app_nil_r. Qed.

Lemma inert_raise {A} (e : exc) : inert (@raise World A e).
Proof. intros [c t]. exists []. by rewrite app_nil_r. Qed.

Lemma inert_lift {A} (r : result A) : inert (lift r).
Proof. intros [c t]. exists []. by rewrite app_nil_r. Qed.

Lemma inert_get : inert (@get World).
Proof. intros [c t]. exists []. by rewrite app_nil_r. Qed.

Lemma inert_emit (ev : event) : plain ev -> inert (emit ev).
Proof. intros H w. exists [ev]. split; [done|]. by constructor. Qed.

Lemma inert_bind {A B} (m : M World A) (f : A -> M World B) :
  inert m -> (forall a, inert (f a)) -> inert (m ≫= f).
Proof.
  intros Hm Hf w. unfold mbind, M_mbind, bind.
  destruct (Hm w) as (evs & E & HP).
  destruct (m w) as [[a|e] w1]; simpl in E; subst w1.
  - destruct (Hf a {| cache := cache w; trace := trace w ++ evs |})
      as (evs' & E' & HP').
    exists (evs ++ evs'). rewrite E'. simpl. rewrite app_assoc.
    split; [done|]. by apply Forall_app.
  - by exists evs.
Qed.

Lemma inert_for {A} (l : list A) (body : A -> M World unit) :
  (forall a, inert (body a)) -> inert (for_ l body).
Proof.
  intros Hb. induction l as [|a l IH]; simpl.
  - apply (inert_ret tt).
  - apply (inert_bind (body a)); [apply Hb | intros _; apply IH].
Qed.

Lemma inert_with_SSHAgent {A} keys (body : M World A) :
  inert body -> inert (with_SSHAgent keys body).
Proof.
  intros Hb w. unfold with_SSHAgent. simpl.
  destruct (Hb {| cache := cache w; trace := trace w ++ [AgentAdd keys] |})
    as (evs & E & HP).
  destruct (body _) as [r w2]; simpl in *; subst w2.
  exists (AgentAdd keys :: evs ++ [AgentRemove keys]). simpl. split.
  - f_equal. by rewrite <- !app_assoc.
  - constructor; [done|]. apply Forall_app; split; [done|].
    by constructor.
Qed.

End Inert.

(** A file the diff rule selects never reaches [download_file]: the
    named tuple has no attribute [mtime]. *)
Lemma collect_file_different env self c row info w :
  _collectl_files_item row = Return info ->
  _is_different (cache w)
    (path_join (_output self) (basename (path info))) info = Return true ->
  _collect_file env self c row w = (Raise (Exc AttributeError "mtime"), w).
Proof.
  intros Hrow Hdiff. unfold _collect_file.
  unfold mbind, M_mbind, bind, lift, get. rewrite Hrow. simpl.
  rewrite Hdiff. reflexivity.
Qed.

Lemma inert_collect_file env self c row : inert (_collect_file env self c row).
Proof.
  intros w. exists []. rewrite app_nil_r.
  unfold _collect_file, mbind, M_mbind, bind, lift, get.
  destruct (_collectl_files_item row) as [info|e]; simpl; [|by destruct w].
  rewrite is_different_spec.
  destruct (match cache w !! _ with Some _ => _ | None => _ end);
    simpl; by destruct w.
Qed.

Lemma inert_get_ssh_client env self h u p :
  inert (_get_ssh_client env self h u p PyNone).
Proof.
  unfold _get_ssh_client, ssh_connect. simpl.
  apply inert_bind; [|intros; apply inert_ret].
  apply inert_bind; [by apply inert_emit|].
  intros _. destruct (net_connect _ _ _); [apply inert_raise|apply inert_ret].
Qed.

Lemma inert_collect env self h u b : inert (_collect env self h u b).
Proof.
  unfold _collect. apply inert_bind; [apply inert_get_ssh_client|].
  intros c. apply inert_bind.
  { unfold ssh_stat. apply inert_bind; [by apply inert_emit|].
    intros _. apply inert_lift. }
  intros rows. apply inert_bind.
  { apply inert_for. intros row. apply inert_collect_file. }
  intros _. by apply inert_emit.
Qed.

Lemma inert_management_target env self : inert (_management_target env self).
Proof.
  unfold _management_target. apply inert_bind; [apply inert_lift|].
  intros n. destruct (negb (has_ip n)); [apply inert_ret|].
  apply inert_bind; [apply inert_get_ssh_client|]. intros c.
  apply inert_bind.
  { unfold ssh_disk_space. apply inert_bind; [by apply inert_emit|].
    intros _. apply inert_lift. }
  intros d. apply inert_bind; [by apply inert_emit|].
  intros _. destruct d; apply inert_ret.
Qed.

Lemma inert_fetch_collectl_lustre env self :
  inert (_fetch_collectl_lustre env self).
Proof.
  unfold _fetch_collectl_lustre.
  apply inert_bind; [apply inert_management_target|]. intros mt.
  apply inert_bind; [apply inert_lift|]. intros sn.
  destruct (negb (truthy sn)); [apply inert_ret|].
  apply inert_bind; [apply inert_lift|]. intros hosts.
  apply inert_for. intros item.
  destruct (String.eqb _ _); [apply inert_ret|].
  apply inert_bind; [apply inert_lift|]. intros nat_host.
  apply inert_collect.
Qed.

Lemma inert_run env self : inert (run env self).
Proof.
  unfold run. apply inert_with_SSHAgent. apply inert_bind.
  - apply inert_for. intros n. apply inert_collect.
  - intros _. apply inert_fetch_collectl_lustre.
Qed.

(** A run never changes the local cache. *)
Lemma run_keeps_cache env self w : cache (snd (run env self w)) = cache w.
Proof. destruct (inert_run env self w) as (evs & -> & _). reflexivity. Qed.

(** C1. Evaluation on the remote file of size 100, last read at
    1700000005 and last written at 1700000007, for which [stat] prints
    the row [web1_row].  [_collectl_files] files the size as [atime],
    the access time as [mtine] and the modification time as [size], so
    the diff rule selects the file although the cache holds a copy of
    the same size and modification time; and a selected file, this one
    as well as one the cache does not hold, is not downloaded: the loop
    of [_collect] raises [AttributeError] on [collectl.mtime] and the
    cache stays as it was. *)
Theorem C1_identical_copy_selected_not_downloaded :
  let env := Fixtures.fleet "" in
  let self := Fixtures.self_of [Fixtures.node "10.0.0.1"] in
  let c := CollectorSpec.session_for self (Fixtures.node "10.0.0.1") in
  let row := Fixtures.stat_row ["%s"; "%X"; "%Y"; "%n"] Fixtures.web1_file in
  let w := Fixtures.world_of Fixtures.cache_identical in
  row = Fixtures.web1_row /\
  _collectl_files_item row =
    Return {| atime := 100; mtine := 1700000005; size := 1700000007;
              path := Fixtures.web1_remote |} /\
  (exists st, cache w !! Fixtures.web1_local = Some st /\
     int_of_float (st_mtime st) = Fixtures.rf_mtime Fixtures.web1_file /\
     st_size st = Fixtures.rf_size Fixtures.web1_file) /\
  _is_different (cache w) Fixtures.web1_local Fixtures.web1_info
    = Return true /\
  _collect_file env self c row w = (Raise (Exc AttributeError "mtime"), w) /\
  _collect_file env self c row (Fixtures.world_of ∅)
    = (Raise (Exc AttributeError "mtime"), Fixtures.world_of ∅).
Proof.
  intros env self c row w.
  assert (Hrow : row = Fixtures.web1_row) by (vm_compute; reflexivity).
  split; [exact Hrow|]. rewrite Hrow. split; [vm_compute; reflexivity|].
  split.
  { eexists. split; [reflexivity|]. split; vm_compute; reflexivity. }
  split; [vm_compute; reflexivity|].
  split.
  - apply (collect_file_different env self c Fixtures.web1_row
             Fixtures.web1_info w); vm_compute; reflexivity.
  - apply (collect_file_different env self c Fixtures.web1_row
             Fixtures.web1_info (Fixtures.world_of ∅)); vm_compute; reflexivity.
Qed.

(** C2. Evaluation on a fleet of one node that offers one telemetry
    file, starting from an empty cache: the first run selects the file,
    fails with [AttributeError] on [collectl.mtime] before anything is
    transferred and leaves the cache empty; the second run finds the
    file missing again and ends the same way. *)
Theorem C2_transfer_never_completes :
  let env := Fixtures.fleet "" in
  let self := Fixtures.self_of [Fixtures.node "10.0.0.1"] in
  let first := run env self (Fixtures.world_of ∅) in
  let second := run env self (snd first) in
  fst first = Raise (Exc AttributeError "mtime") /\
  cache (snd first) = ∅ /\
  Forall plain (trace (snd first)) /\
  _is_different (cache (snd first)) Fixtures.web1_local Fixtures.web1_info
    = Return true /\
  fst second = Raise (Exc AttributeError "mtime") /\
  cache (snd second) = ∅.
Proof.
  intros env self first second.
  assert (H1 : fst first = Raise (Exc AttributeError "mtime"))
    by (vm_compute; reflexivity).
  assert (H2 : cache (snd first) = ∅) by apply run_keeps_cache.
  refine (conj H1 (conj H2 (conj _ (conj _ (conj _ _))))).
  - destruct (inert_run env self (Fixtures.world_of ∅)) as (evs & E & HP).
    unfold first. rewrite E. exact HP.
  - rewrite H2. reflexivity.
  - vm_compute. reflexivity.
  - unfold second. rewrite run_keeps_cache. exact H2.
Qed.

(** ** Failures while collecting *)

Lemma for_app_raise {S A} (pre post : list A) (x : A) (body : A -> M S unit)
    (e : exc) (w w1 w2 : S) :
  for_ pre body w = (Return tt, w1) ->
  body x w1 = (Raise e, w2) ->
  for_ (pre ++ x :: post) body w = (Raise e, w2).
Proof.
  revert w. induction pre as [|a pre IH]; intros w Hpre Hx; simpl in *.
  - inversion Hpre; subst. unfold bind. by rewrite Hx.
  - unfold bind in *. destruct (body a w) as [[[]|e'] w'].
    + by apply IH.
    + discriminate.
Qed.

Lemma collect_connect_fails env self n e w :
  net_connect env (session_for self n) PyNone = Some e ->
  _collect env self (ip_of n) (image_user n) PyNone w =
  (Raise e, snd (emit (Connect (session_for self n) PyNone) w)).
Proof.
  intros H. unfold _collect, _get_ssh_client, ssh_connect.
  unfold mbind, M_mbind, bind. simpl. fold (session_for self n).
  rewrite H. reflexivity.
Qed.

(** C3 (as the code has it). A connection failure on a node is not
    caught by [run]: when the nodes before it were handled without
    error, the run raises that very failure; the world it leaves is the
    one reached after those nodes plus the failed handshake and the
    release of the key agent, so neither the later nodes nor the shared
    file system are visited. *)
Theorem C3_failure_propagates env self (pre post : list Node) (b : Node)
    (e : exc) (w w1 : World) :
  available_nodes self = pre ++ b :: post ->
  for_ pre (fun node => _collect env self (ip_of node) (image_user node) PyNone)
    (snd (emit (AgentAdd (private_keys self)) w)) = (Return tt, w1) ->
  net_connect env (session_for self b) PyNone = Some e ->
  run env self w =
  (Raise e,
   snd (emit (AgentRemove (private_keys self))
          (snd (emit (Connect (session_for self b) PyNone) w1)))).
Proof.
  intros Hnodes Hpre Hconn. unfold run, with_SSHAgent.
  destruct (emit (AgentAdd (private_keys self)) w) as [r0 w0] eqn:E0.
  simpl in Hpre. unfold mbind, M_mbind, bind. rewrite Hnodes.
  erewrite for_app_raise; [reflexivity | exact Hpre |].
  by apply collect_connect_fails.
Qed.

Lemma C3_failure_propagates_witness :
  fst (run (Fixtures.fleet "10.0.0.2") Fixtures.abc
         (Fixtures.world_of Fixtures.cache_equal))
  = Raise Fixtures.unreachable.
Proof.
  erewrite (C3_failure_propagates (Fixtures.fleet "10.0.0.2") Fixtures.abc
              [Fixtures.node "10.0.0.1"] [Fixtures.node "10.0.0.3"]
              (Fixtures.node "10.0.0.2") Fixtures.unreachable).
  - reflexivity.
  - reflexivity.
  - vm_compute. reflexivity.
  - reflexivity.
Defined.

(** With B unreachable and the cache up to date for A and C, the run
    raises B's failure and no session to C is ever opened. *)
Lemma C3_counterexample :
  let out := run (Fixtures.fleet "10.0.0.2") Fixtures.abc
               (Fixtures.world_of Fixtures.cache_equal) in
  fst out = Raise Fixtures.unreachable /\
  Forall (fun ev => match ev with
                    | Connect c _ => host c <> "10.0.0.3"
                    | _ => True
                    end) (trace (snd out)).
Proof.
  split; [vm_compute; reflexivity|].
  vm_compute. repeat constructor; discriminate.
Qed.

(** C7. Every session a run opens, in the per-node pass and in the
    shared-file-system pass alike, rejects unknown hosts and is opened
    without a bastion: [_collect] passes its [bastion_host] in the
    position of [port]. *)
Theorem C7_every_session_rejects env self (c : gmap string LocalStat) :
  Forall (fun ev => match ev with
                    | Connect s b =>
                        missing_host_key_policy s = RejectPolicy /\ b = PyNone
                    | _ => True
                    end)
    (trace (snd (run env self {| cache := c; trace := [] |}))).
Proof.
  destruct (inert_run env self {| cache := c; trace := [] |}) as (evs & E & HP).
  rewrite E. simpl. eapply Forall_impl; [exact HP|].
  intros [] H; simpl in *; done.
Qed.

(** The shared-file-system pass on a fleet whose ICEL stack has a NAT
    device at 54.0.0.1 and a server at 10.0.0.5: the session to the
    server carries the NAT address as its port. *)
Lemma lustre_session_through_nat :
  Connect {| host := "10.0.0.5"; user := "ec2-user"; port := PyStr "54.0.0.1";
             missing_host_key_policy := RejectPolicy;
             host_keys := "/tmp/known_hosts" |} PyNone
  ∈ trace (snd (_fetch_collectl_lustre Fixtures.fleet_lustre
                  (Fixtures.self_of [Fixtures.node "10.0.0.1"])
                  (Fixtures.world_of Fixtures.cache_equal))).
Proof. vm_compute. repeat constructor. Qed.

(** ** Remote execution *)

Import BaseCloudProvider.

(** C8 (as the code has it). [_execute_remote] turns a failure of
    [exec_command] into the pair [(None, exc)] exactly when it is an
    instance of [paramiko.SSHException]; when [exec_command] returns and
    both streams can be read it answers [(stdout, stderr)]; it raises in
    the remaining cases and only in those: an exception of another class
    from [exec_command], or any exception from reading a stream. *)
Theorem C8_execute_remote (connection : Connection) (command : string) :
  (forall e, exec_command connection command = Raise e ->
             is_SSHException e = true ->
             _execute_remote connection command = Return (Nothing, Failure e))
  /\ (forall i o r a b,
        exec_command connection command = Return (i, o, r) ->
        read o = Return a -> read r = Return b ->
        _execute_remote connection command = Return (Output a, Output b))
  /\ (forall e, _execute_remote connection command = Raise e <->
        (exec_command connection command = Raise e /\
         is_SSHException e = false)
        \/ exists i o r, exec_command connection command = Return (i, o, r) /\
             (read o = Raise e \/
              exists a, read o = Return a /\ read r = Raise e)).
Proof.
  unfold _execute_remote. split; [|split].
  - intros e -> ->. reflexivity.
  - intros i o r a b -> Ho Hr. unfold mbind, result_mbind, result_bind.
    by rewrite Ho, Hr.
  - intros e. destruct (exec_command connection command) as [[[i o] r]|e0].
    + unfold mbind, result_mbind, result_bind. split.
      * intros H. right. exists i, o, r. split; [done|].
        destruct (read o) as [a|e1]; [|left; by inversion H].
        right. exists a. split; [done|].
        destruct (read r) as [b|e2]; [discriminate | by inversion H].
      * intros [[H _]|(i' & o' & r' & E & H)]; [discriminate|].
        inversion E; subst i' o' r'.
        destruct H as [->|(a & -> & ->)]; reflexivity.
    + split.
      * intros H. left. destruct (is_SSHException e0) eqn:Es; [discriminate|].
        inversion H; subst. done.
      * intros [[E Es]|(i & o & r & E & _)]; [|discriminate].
        inversion E; subst. by rewrite Es.
Qed.

Lemma C8_execute_remote_witness :
  _execute_remote Fixtures.conn_closed "echo $HOME"
    = Return (Nothing, Failure Fixtures.session_closed)
  /\ _execute_remote Fixtures.conn_ok "echo $HOME"
       = Return (Output "/home/ubuntu", Output "")
  /\ _execute_remote Fixtures.conn_stalled "echo $HOME"
       = Raise Fixtures.reset_by_peer.
Proof.
  split; [|split].
  - apply (proj1 (C8_execute_remote Fixtures.conn_closed "echo $HOME"));
      reflexivity.
  - apply (proj1 (proj2 (C8_execute_remote Fixtures.conn_ok "echo $HOME"))
             (Fixtures.stream "") (Fixtures.stream "/home/ubuntu")
             (Fixtures.stream "")); reflexivity.
  - apply (proj2 (C8_execute_remote Fixtures.conn_stalled "echo $HOME")).
    right. eexists _, _, _. split; [reflexivity|]. left. reflexivity.
Defined.

(** A connection whose [exec_command] fails with a socket error: the
    failure is raised, no pair is returned. *)
Lemma C8_counterexample :
  ~ (exists p, _execute_remote Fixtures.conn_reset "echo $HOME" = Return p).
Proof. intros [p H]. vm_compute in H. discriminate. Qed.

(** ** Host keys *)

Import Parser ParserSpec.

#[local] Arguments String.append !_ _ / : simpl nomatch.

Lemma match_lit_length p s r :
  match_lit p s = Some r -> String.length s = (String.length p + String.length r)%nat.
Proof.
  revert s. induction p as [|a p IH]; intros s H; simpl in *.
  - by inversion H.
  - destruct s as [|b s]; [discriminate|].
    destruct (Ascii.eqb a b); [|discriminate]. simpl. by rewrite (IH s).
Qed.

Lemma match_digits_length n s r :
  match_digits n s = Some r -> String.length s = (n + String.length r)%nat.
Proof.
  revert s. induction n as [|n IH]; intros s H; simpl in *.
  - by inversion H.
  - destruct s as [|c s]; [discriminate|].
    destruct (is_digit c); [|discriminate]. simpl. by rewrite (IH s).
Qed.

Lemma match_end_length r : match_end r = true -> (String.length r <= 1)%nat.
Proof.
  unfold match_end. rewrite orb_true_iff, !String.eqb_eq.
  intros [->| ->]; simpl; lia.
Qed.

Lemma match_here_length s r :
  match_here s = Some r ->
  String.length s = (23 + String.length r)%nat /\ (String.length r <= 1)%nat.
Proof.
  unfold match_here. intros H.
  apply bind_Some in H as (s1 & E1 & H). apply bind_Some in H as (s2 & E2 & H).
  apply bind_Some in H as (s3 & E3 & H). apply bind_Some in H as (s4 & E4 & H).
  apply bind_Some in H as (s5 & E5 & H).
  destruct (match_end s5) eqn:E6; [|discriminate].
  inversion H; subst s5.
  apply match_lit_length in E1, E3, E5. apply match_digits_length in E2, E4.
  apply match_end_length in E6. simpl in *. lia.
Qed.

Lemma match_lit_app p r : match_lit p (p +:+ r) = Some r.
Proof.
  induction p as [|a p IH]; simpl; [done|]. by rewrite Ascii.eqb_refl.
Qed.

Lemma match_digits_app d r :
  all_digits d = true -> match_digits (String.length d) (d +:+ r) = Some r.
Proof.
  induction d as [|c d IH]; simpl; [done|].
  rewrite andb_true_iff. intros [-> H]. by apply IH.
Qed.

Lemma string_app_assoc (a b c : string) : (a +:+ b) +:+ c = a +:+ (b +:+ c).
Proof. induction a as [|x a IH]; simpl; [done|]. by rewrite IH. Qed.

Lemma string_app_length (a b : string) :
  String.length (a +:+ b) = (String.length a + String.length b)%nat.
Proof. induction a as [|x a IH]; simpl; [done|]. by rewrite IH. Qed.

Lemma Some_bind {A B} (x : A) (f : A -> option B) : Some x ≫= f = f x.
Proof. reflexivity. Qed.

(** The timestamp of a capture name is a match of the pattern that
    reaches the end of the name. *)
Lemma match_here_timestamp date time :
  String.length date = 8%nat -> all_digits date = true ->
  String.length time = 6%nat -> all_digits time = true ->
  match_here ("-" +:+ date +:+ "-" +:+ time +:+ ".raw.gz") = Some "".
Proof.
  intros Ld Hd Lt Ht. unfold match_here.
  rewrite match_lit_app, Some_bind, <- Ld, (match_digits_app _ _ Hd), Some_bind.
  rewrite match_lit_app, Some_bind, <- Lt, (match_digits_app _ _ Ht), Some_bind.
  change ".raw.gz" with (".raw.gz" +:+ "") at 2.
  rewrite match_lit_app. reflexivity.
Qed.

(** No match starts before a match that reaches the end of the name. *)
Lemma match_here_not_earlier c h ts :
  match_here ts = Some "" -> match_here (String c (h +:+ ts)) = None.
Proof.
  intros Hts. destruct (match_here (String c (h +:+ ts))) as [r|] eqn:E; [|done].
  exfalso. destruct (match_here_length _ _ E) as [L1 L2].
  destruct (match_here_length _ _ Hts) as [L3 _].
  simpl in L1, L3. rewrite string_app_length in L1.
  destruct h as [|x h]; [|simpl in L1; lia].
  simpl in E. clear L1 L2 L3. unfold match_here in Hts, E.
  apply bind_Some in Hts as (s1 & E1 & _).
  apply bind_Some in E as (u1 & F1 & E). apply bind_Some in E as (u2 & F2 & _).
  cbn [match_lit] in F1. destruct (Ascii.eqb "-" c); [|discriminate].
  inversion F1; subst u1.
  destruct ts as [|t0 ts]; [discriminate|]. cbn [match_lit] in E1.
  destruct (Ascii.eqb "-" t0) eqn:Et; [|discriminate].
  apply Ascii.eqb_eq in Et. subst t0. simpl in F2. discriminate.
Qed.

Lemma host_key_strip h ts : match_here ts = Some "" -> host_key (h +:+ ts) = h.
Proof.
  intros Hts. induction h as [|c h IH].
  - change ("" +:+ ts) with ts. destruct ts as [|t0 ts]; [done|].
    cbn [host_key]. by rewrite Hts.
  - change (String c h +:+ ts) with (String c (h +:+ ts)). cbn [host_key].
    rewrite (match_here_not_earlier c h ts Hts). by rewrite IH.
Qed.

Lemma host_key_capture_name hostname date time :
  String.length date = 8%nat -> all_digits date = true ->
  String.length time = 6%nat -> all_digits time = true ->
  host_key (capture_name hostname date time) = hostname.
Proof.
  intros. unfold capture_name. apply host_key_strip.
  by apply match_here_timestamp.
Qed.

(** ** The loop of [Parser.run] *)

Section ParserLoop.

Context {K V Row Hardware : Type}.
Variable env : Env K V Row Hardware.
Variable self : Self.
Variable tf : Time K.

Let acc_t : Type := gmap string (list Row) * gmap string Hardware.

Lemma host_rows_cons (h f : string) (files : list string) :
  host_rows env self tf h (f :: files) =
  (if decide (host_key f = h) then decoded env self tf f else [])
    ++ host_rows env self tf h files.
Proof.
  unfold host_rows. rewrite filter_cons.
  destruct (decide (host_key f = h)); reflexivity.
Qed.

Lemma well_formed_empty : well_formed ((∅, ∅) : acc_t).
Proof.
  split; simpl.
  - intros h rows H. by rewrite lookup_empty in H.
  - by rewrite !dom_empty_L.
Qed.

Lemma run_file_step (acc acc' : acc_t) (f : string) :
  run_file env self tf acc f = Return acc' ->
  well_formed acc ->
  well_formed acc' /\
  forall h, rows_of (fst acc') h =
            rows_of (fst acc) h
              ++ (if decide (host_key f = h) then decoded env self tf f
                  else []).
Proof.
  destruct acc as [df hw]. unfold run_file, decoded, loaded.
  intros H [Hne Hdom]. simpl in Hne, Hdom.
  destruct (endswith f COLLECTL_SUFFIX); simpl in H.
  2:{ inversion H; subst. split; [by split|]. intros h.
      destruct (decide _); by rewrite app_nil_r. }
  unfold mbind, result_mbind, result_bind in H.
  destruct (load_collectl env _ _ _) as [[data hardware]|e]; [|discriminate].
  destruct data as [|r data]; simpl in H.
  { inversion H; subst. split; [by split|]. intros h.
    destruct (decide _); by rewrite app_nil_r. }
  destruct (df !! host_key f) as [old|] eqn:E;
    inversion H; subst acc'; clear H; simpl.
  - split; [split; simpl|].
    + intros h rows. destruct (decide (host_key f = h)) as [<-|N].
      * rewrite lookup_insert_eq. intros [= <-]. by destruct old.
      * rewrite lookup_insert_ne by done. apply Hne.
    + rewrite !dom_insert_L. by rewrite Hdom.
    + intros h. unfold rows_of. destruct (decide (host_key f = h)) as [<-|N].
      * by rewrite lookup_insert_eq, E.
      * rewrite lookup_insert_ne by done. by rewrite app_nil_r.
  - split; [split; simpl|].
    + intros h rows. destruct (decide (host_key f = h)) as [<-|N].
      * rewrite lookup_insert_eq. by intros [= <-].
      * rewrite lookup_insert_ne by done. apply Hne.
    + rewrite !dom_insert_L. by rewrite Hdom.
    + intros h. unfold rows_of. destruct (decide (host_key f = h)) as [<-|N].
      * by rewrite lookup_insert_eq, E.
      * rewrite lookup_insert_ne by done. by rewrite app_nil_r.
Qed.

Lemma run_loop_spec (files : list string) (acc acc' : acc_t) :
  run_loop env self tf files acc = Return acc' ->
  well_formed acc ->
  well_formed acc' /\
  forall h, rows_of (fst acc') h =
            rows_of (fst acc) h ++ host_rows env self tf h files.
Proof.
  revert acc. induction files as [|f files IH]; intros acc H Hwf.
  - inversion H; subst. split; [done|]. intros h.
    unfold host_rows. simpl. by rewrite app_nil_r.
  - simpl in H. unfold mbind, result_mbind, result_bind in H.
    destruct (run_file env self tf acc f) as [acc1|e] eqn:E; [|discriminate].
    destruct (run_file_step _ _ _ E Hwf) as [Hwf1 Hrows1].
    destruct (IH _ H Hwf1) as [Hwf' Hrows']. split; [done|].
    intros h. rewrite Hrows', Hrows1, host_rows_cons. by rewrite app_assoc.
Qed.

(** What the loop leaves for a host, started on empty dictionaries. *)
Lemma run_loop_lookup (files : list string) (acc' : acc_t) (h : string) :
  run_loop env self tf files (∅, ∅) = Return acc' ->
  fst acc' !! h =
  match host_rows env self tf h files with
  | [] => None
  | rows => Some rows
  end.
Proof.
  intros H. destruct (run_loop_spec _ _ _ H well_formed_empty) as [[Hne _] Hr].
  specialize (Hr h). unfold rows_of in Hr. simpl in Hr.
  rewrite lookup_empty in Hr. simpl in Hr. rewrite <- Hr.
  destruct (fst acc' !! h) as [rows|] eqn:E; simpl; [|done].
  specialize (Hne h rows E). by destruct rows.
Qed.

Lemma run_loop_app (l1 l2 : list string) (acc : acc_t) :
  run_loop env self tf (l1 ++ l2) acc =
  run_loop env self tf l1 acc ≫= run_loop env self tf l2.
Proof.
  revert acc. induction l1 as [|f l1 IH]; intros acc; simpl; [done|].
  unfold mbind, result_mbind, result_bind.
  destruct (run_file env self tf acc f); [apply IH | done].
Qed.

Lemma run_file_readable (acc : acc_t) (f : string) :
  readable env self tf f -> exists acc', run_file env self tf acc f = Return acc'.
Proof.
  intros Hr. destruct acc as [df hw]. unfold run_file.
  destruct (endswith f COLLECTL_SUFFIX) eqn:E; simpl; [|by eexists].
  destruct (Hr E) as (data & hardware & Hl). unfold loaded in Hl.
  rewrite Hl. simpl. destruct data; simpl; [by eexists|].
  destruct (df !! host_key f); by eexists.
Qed.

Lemma run_loop_readable (files : list string) (acc : acc_t) :
  Forall (readable env self tf) files ->
  exists acc', run_loop env self tf files acc = Return acc'.
Proof.
  revert acc. induction files as [|f files IH]; intros acc Hall; simpl.
  - by eexists.
  - inversion Hall as [|? ? Hf Hfiles]; subst.
    destruct (run_file_readable acc f Hf) as [acc1 ->]. simpl.
    apply IH, Hfiles.
Qed.

Lemma run_file_corrupt (acc : acc_t) (f : string) (e : exc) :
  endswith f COLLECTL_SUFFIX = true -> loaded env self tf f = Raise e ->
  run_file env self tf acc f = Raise e.
Proof.
  intros E Hl. destruct acc as [df hw]. unfold run_file. rewrite E. simpl.
  unfold loaded in Hl. by rewrite Hl.
Qed.

(** The loop stops at the first entry the decoder fails on. *)
Lemma run_loop_corrupt (pre post : list string) (f : string) (e : exc)
    (acc : acc_t) :
  Forall (readable env self tf) pre ->
  endswith f COLLECTL_SUFFIX = true -> loaded env self tf f = Raise e ->
  run_loop env self tf (pre ++ f :: post) acc = Raise e.
Proof.
  intros Hpre E Hl. rewrite run_loop_app.
  destruct (run_loop_readable pre acc Hpre) as [acc1 ->]. simpl.
  by rewrite (run_file_corrupt acc1 f e E Hl).
Qed.

(** A row the loop recorded was decoded from some directory entry. *)
Lemma host_rows_origin (h : string) (files : list string) (r : Row) :
  r ∈ host_rows env self tf h files ->
  exists f data hardware,
    f ∈ files /\ loaded env self tf f = Return (data, hardware) /\ r ∈ data.
Proof.
  induction files as [|f files IH].
  - unfold host_rows. simpl. intros H. by apply elem_of_nil in H.
  - rewrite host_rows_cons, elem_of_app. intros [H|H].
    + destruct (decide (host_key f = h)) as [_|_];
        [|by apply elem_of_nil in H].
      unfold decoded in H. destruct (endswith f COLLECTL_SUFFIX);
        [|by apply elem_of_nil in H].
      destruct (loaded env self tf f) as [[data hardware]|e] eqn:E;
        [|by apply elem_of_nil in H].
      exists f, data, hardware. split; [left|done].
    + destruct (IH H) as (f' & data & hardware & Hf & Hl & Hr).
      exists f', data, hardware. split; [by right|done].
Qed.

End ParserLoop.

(** ** The time window *)

Section MinMax.

Context {K : Type}.
Variable ltb : K -> K -> bool.
Hypothesis ltb_asym : forall a b, ltb a b = true -> ltb b a = false.
Hypothesis ltb_negtrans :
  forall a b c, ltb a b = false -> ltb b c = false -> ltb a c = false.

Lemma ltb_irrefl a : ltb a a = false.
Proof. destruct (ltb a a) eqn:E; [by rewrite (ltb_asym a a E) in E | done]. Qed.

Lemma fold_min_spec (l : list K) (x : K) :
  let m := fold_left (fun best y => if ltb y best then y else best) l x in
  m ∈ x :: l /\ forall k, k ∈ x :: l -> ltb k m = false.
Proof.
  revert x. induction l as [|y l IH]; intros x; simpl.
  - split; [left|]. intros k Hk. apply list_elem_of_singleton in Hk as ->.
    apply ltb_irrefl.
  - destruct (IH (if ltb y x then y else x)) as [Hin Hle].
    set (m := fold_left _ l _) in *. split.
    + apply elem_of_cons in Hin as [Hin|Hin]; [|by do 2 right].
      rewrite Hin. destruct (ltb y x); [right; left | left].
    + assert (Hx' : ltb (if ltb y x then y else x) m = false)
        by (apply Hle; left).
      intros k Hk. apply elem_of_cons in Hk as [->|Hk].
      * apply ltb_negtrans with (b := if ltb y x then y else x); [|done].
        destruct (ltb y x) eqn:E; [by apply ltb_asym | apply ltb_irrefl].
      * apply elem_of_cons in Hk as [->|Hk]; [|apply Hle; by right].
        apply ltb_negtrans with (b := if ltb y x then y else x); [|done].
        destruct (ltb y x) eqn:E; [apply ltb_irrefl | done].
Qed.

Lemma fold_max_spec (l : list K) (x : K) :
  let m := fold_left (fun best y => if ltb best y then y else best) l x in
  m ∈ x :: l /\ forall k, k ∈ x :: l -> ltb m k = false.
Proof.
  revert x. induction l as [|y l IH]; intros x; simpl.
  - split; [left|]. intros k Hk. apply list_elem_of_singleton in Hk as ->.
    apply ltb_irrefl.
  - destruct (IH (if ltb x y then y else x)) as [Hin Hle].
    set (m := fold_left _ l _) in *. split.
    + apply elem_of_cons in Hin as [Hin|Hin]; [|by do 2 right].
      rewrite Hin. destruct (ltb x y); [right; left | left].
    + assert (Hx' : ltb m (if ltb x y then y else x) = false)
        by (apply Hle; left).
      intros k Hk. apply elem_of_cons in Hk as [->|Hk].
      * apply ltb_negtrans with (b := if ltb x y then y else x); [done|].
        destruct (ltb x y) eqn:E; [by apply ltb_asym | apply ltb_irrefl].
      * apply elem_of_cons in Hk as [->|Hk]; [|apply Hle; by right].
        apply ltb_negtrans with (b := if ltb x y then y else x); [done|].
        destruct (ltb x y) eqn:E; [apply ltb_irrefl | done].
Qed.

Context {V Row Hardware : Type}.
Variable env : Env K V Row Hardware.
Variable self : Self.

(** On a log with at least one checkpoint the window is the least and
    the greatest key of the log. *)
Lemma time_frame_spec (timings : list (K * V)) :
  get_bcbio_timings env (_bcbio_log self) = Return timings ->
  timings <> [] ->
  exists tf, _time_frame ltb env self = Return tf /\
    steps tf = keys timings /\
    start tf ∈ keys timings /\
    (forall k, k ∈ keys timings -> ltb k (start tf) = false) /\
    end_ tf ∈ keys timings /\
    (forall k, k ∈ keys timings -> ltb (end_ tf) k = false).
Proof.
  intros Hlog Hne. unfold _time_frame. rewrite Hlog. simpl.
  destruct timings as [|[k0 v0] timings]; [done|]. simpl.
  destruct (fold_min_spec (keys timings) k0) as [Hmin1 Hmin2].
  destruct (fold_max_spec (keys timings) k0) as [Hmax1 Hmax2].
  eexists. split; [reflexivity|]. simpl. done.
Qed.

End MinMax.

(** ** What [Parser.run] returns *)

Section ParserRun.

Context {K V Row Hardware : Type}.
Variable ltb : K -> K -> bool.
Variable env : Env K V Row Hardware.
Variable self : Self.

Lemma run_inv df hw st :
  run ltb env self = Return (df, hw, st) ->
  exists tf listing,
    _time_frame ltb env self = Return tf /\
    os_listdir env (_rawdir self) = Return listing /\
    run_loop env self tf (sorted listing) (∅, ∅) = Return (df, hw) /\
    st = steps tf.
Proof.
  unfold run, mbind, result_mbind, result_bind. intros H.
  destruct (_time_frame ltb env self) as [tf|e]; [|discriminate].
  destruct (os_listdir env (_rawdir self)) as [listing|e]; [|discriminate].
  destruct (run_loop env self tf (sorted listing) (∅, ∅))
    as [[df' hw']|e] eqn:E; [|discriminate].
  simpl in H. inversion H; subst. exists tf, listing. repeat split.
  exact E.
Qed.

(** [run] returns whenever the log has a checkpoint, the cache can be
    listed and every telemetry file can be decoded. *)
Lemma run_total tf listing :
  _time_frame ltb env self = Return tf ->
  os_listdir env (_rawdir self) = Return listing ->
  Forall (readable env self tf) (sorted listing) ->
  exists df hw, run ltb env self = Return (df, hw, steps tf).
Proof.
  intros Htf Hls Hall. unfold run, mbind, result_mbind, result_bind.
  rewrite Htf, Hls.
  destruct (run_loop_readable env self tf _ (∅, ∅) Hall) as [[df hw] ->].
  by exists df, hw.
Qed.

End ParserRun.

(** C4 (as the code has it). The window is taken over the keys of the
    timing log, which [get_bcbio_timings] keys by timestamp: on a log
    with at least one checkpoint, [start] is the least key and [end] the
    greatest (for [{10: a, 50: b, 30: c}], start 10 and end 50), and
    when the decoder keeps to the window it is given, every row of every
    returned frame has its timestamp in [[start, end]]. *)
Theorem C4_time_window {K V Row Hardware : Type} (ltb : K -> K -> bool)
    (row_time : Row -> K) (env : Env K V Row Hardware) (self : Self)
    (timings : list (K * V)) :
  (forall a b, ltb a b = true -> ltb b a = false) ->
  (forall a b c, ltb a b = false -> ltb b c = false -> ltb a c = false) ->
  (forall p lo hi data hardware r,
     load_collectl env p lo hi = Return (data, hardware) -> r ∈ data ->
     ltb (row_time r) lo = false /\ ltb hi (row_time r) = false) ->
  get_bcbio_timings env (_bcbio_log self) = Return timings ->
  timings <> [] ->
  exists tf, _time_frame ltb env self = Return tf /\
    steps tf = keys timings /\
    start tf ∈ keys timings /\
    (forall k, k ∈ keys timings -> ltb k (start tf) = false) /\
    end_ tf ∈ keys timings /\
    (forall k, k ∈ keys timings -> ltb (end_ tf) k = false) /\
    (forall df hw st host rows r,
       run ltb env self = Return (df, hw, st) ->
       df !! host = Some rows -> r ∈ rows ->
       ltb (row_time r) (start tf) = false /\
       ltb (end_ tf) (row_time r) = false).
Proof.
  intros Hasym Htrans Hdec Hlog Hne.
  destruct (time_frame_spec ltb Hasym Htrans env self timings Hlog Hne)
    as (tf & Htf & Hsteps & Hlo1 & Hlo2 & Hhi1 & Hhi2).
  exists tf. repeat (split; [done|]).
  intros df hw st host rows r Hrun Hdf Hr.
  apply run_inv in Hrun as (tf' & listing & Htf' & _ & Hloop & _).
  rewrite Htf in Htf'. inversion Htf'; subst tf'.
  pose proof (run_loop_lookup env self tf _ _ host Hloop) as Hlk.
  simpl in Hlk. rewrite Hdf in Hlk.
  destruct (host_rows env self tf host (sorted listing)) as [|r0 rs] eqn:E;
    [discriminate|].
  inversion Hlk; subst rows. rewrite <- E in Hr.
  apply host_rows_origin in Hr as (f & data & hardware & _ & Hl & Hr).
  by apply (Hdec _ _ _ _ _ _ Hl).
Qed.

Lemma C4_time_window_witness :
  exists tf, _time_frame Z.ltb Fixtures.cache_env Fixtures.parser_self
             = Return tf /\
    steps tf = [10; 50; 30] /\
    start tf ∈ [10; 50; 30] /\
    (forall k, k ∈ [10; 50; 30] -> (k <? start tf) = false) /\
    end_ tf ∈ [10; 50; 30] /\
    (forall k, k ∈ [10; 50; 30] -> (end_ tf <? k) = false) /\
    (forall df hw st host rows r,
       run Z.ltb Fixtures.cache_env Fixtures.parser_self
         = Return (df, hw, st) ->
       df !! host = Some rows -> r ∈ rows ->
       (fst r <? start tf) = false /\ (end_ tf <? fst r) = false).
Proof.
  apply (C4_time_window Z.ltb fst Fixtures.cache_env Fixtures.parser_self
           Fixtures.timings).
  - intros a b. rewrite Z.ltb_lt, Z.ltb_ge. lia.
  - intros a b c. rewrite !Z.ltb_ge. lia.
  - intros p lo hi data hardware r H Hr. simpl in H. unfold Fixtures.decode in H.
    inversion H; subst. apply list_elem_of_filter in Hr as [Hr _].
    apply Is_true_true in Hr. apply andb_true_iff in Hr as [H1 H2].
    rewrite !Z.ltb_ge. apply Z.leb_le in H1, H2. lia.
  - reflexivity.
  - discriminate.
Defined.

(** A timing log without any checkpoint: [min] raises [ValueError], no
    window is derived and [run] returns no frame. *)
Lemma C4_counterexample :
  get_bcbio_timings Fixtures.silent_env (_bcbio_log Fixtures.parser_self)
    = Return [] /\
  _time_frame Z.ltb Fixtures.silent_env Fixtures.parser_self
    = Raise (Exc ValueError "min() arg is an empty sequence") /\
  ~ (exists tf, _time_frame Z.ltb Fixtures.silent_env Fixtures.parser_self
                = Return tf) /\
  Parser.run Z.ltb Fixtures.silent_env Fixtures.parser_self
    = Raise (Exc ValueError "min() arg is an empty sequence").
Proof.
  split; [reflexivity|]. split; [reflexivity|]. split; [|reflexivity].
  intros [tf H]. vm_compute in H. discriminate.
Qed.

(** C5. A capture name [<hostname>-<8 digits>-<6 digits>.raw.gz] has
    the host key [<hostname>], and the frame returned for a host is the
    concatenation, in sorted order of the file names, of the rows
    decoded from the telemetry files with that host key. *)
Theorem C5_host_aggregation {K V Row Hardware : Type} (ltb : K -> K -> bool)
    (env : Env K V Row Hardware) (self : Self)
    (df : gmap string (list Row)) (hw : gmap string Hardware) (st : list K) :
  run ltb env self = Return (df, hw, st) ->
  (forall hostname date time,
     String.length date = 8%nat -> all_digits date = true ->
     String.length time = 6%nat -> all_digits time = true ->
     host_key (capture_name hostname date time) = hostname) /\
  exists tf listing,
    _time_frame ltb env self = Return tf /\
    os_listdir env (_rawdir self) = Return listing /\
    forall host,
      df !! host =
      match host_rows env self tf host (sorted listing) with
      | [] => None
      | rows => Some rows
      end.
Proof.
  intros Hrun. split; [apply host_key_capture_name|].
  apply run_inv in Hrun as (tf & listing & Htf & Hls & Hloop & _).
  exists tf, listing. repeat (split; [done|]).
  intros host. apply (run_loop_lookup env self tf _ _ host Hloop).
Qed.

Lemma C5_host_aggregation_witness :
  sorted [Fixtures.web1_day2; "notes.txt"; Fixtures.db1_day1;
          Fixtures.web1_day1]
    = [Fixtures.db1_day1; "notes.txt"; Fixtures.web1_day1; Fixtures.web1_day2]
  /\ host_key Fixtures.web1_day1 = "web1"
  /\ host_key Fixtures.web1_day2 = "web1"
  /\ exists tf listing,
       _time_frame Z.ltb Fixtures.cache_env Fixtures.parser_self = Return tf /\
       os_listdir Fixtures.cache_env "/tmp/raw" = Return listing /\
       forall host,
         ({[ "web1" := [(10, "r1"); (20, "r2"); (40, "r3")] ]}
            : gmap string (list (Z * string))) !! host =
         match host_rows Fixtures.cache_env Fixtures.parser_self tf host
                 (sorted listing) with
         | [] => None
         | rows => Some rows
         end.
Proof.
  split; [vm_compute; reflexivity|].
  assert (H := C5_host_aggregation Z.ltb Fixtures.cache_env
                 Fixtures.parser_self
                 {[ "web1" := [(10, "r1"); (20, "r2"); (40, "r3")] ]}
                 {[ "web1" := "cpus of /tmp/raw/web1-20230102-000000.raw.gz" ]}
                 [10; 50; 30]).
  destruct H as [Hkey Hrows]; [vm_compute; reflexivity|].
  split; [|split].
  - apply (Hkey "web1" "20230101" "000000"); reflexivity.
  - apply (Hkey "web1" "20230102" "000000"); reflexivity.
  - exact Hrows.
Defined.

(** C6 (as the code has it). A decoder failure is not caught: when the
    telemetry files that sort before [f] can all be decoded and the
    decoder raises on [f], [run] raises that exception and returns no
    result, whatever the files after [f] hold. *)
Theorem C6_decode_error_propagates {K V Row Hardware : Type}
    (ltb : K -> K -> bool) (env : Env K V Row Hardware) (self : Self)
    (tf : Time K) (listing pre post : list string) (f : string) (e : exc) :
  _time_frame ltb env self = Return tf ->
  os_listdir env (_rawdir self) = Return listing ->
  sorted listing = pre ++ f :: post ->
  Forall (readable env self tf) pre ->
  endswith f COLLECTL_SUFFIX = true ->
  loaded env self tf f = Raise e ->
  run ltb env self = Raise e.
Proof.
  intros Htf Hls Hsort Hpre Hsuf Hbad.
  unfold run, mbind, result_mbind, result_bind. rewrite Htf, Hls, Hsort.
  by rewrite (run_loop_corrupt env self tf pre post f e (∅, ∅) Hpre Hsuf Hbad).
Qed.

Lemma C6_decode_error_propagates_witness :
  run Z.ltb Fixtures.corrupt_env Fixtures.parser_self
  = Raise Fixtures.bad_capture.
Proof.
  apply (C6_decode_error_propagates Z.ltb Fixtures.corrupt_env
           Fixtures.parser_self
           {| start := 10; end_ := 50; steps := [10; 50; 30] |}
           [Fixtures.web1_day2; "notes.txt"; Fixtures.db1_day1;
            Fixtures.web1_day1]
           [] ["notes.txt"; Fixtures.web1_day1; Fixtures.web1_day2]
           Fixtures.db1_day1).
  - reflexivity.
  - reflexivity.
  - vm_compute. reflexivity.
  - constructor.
  - reflexivity.
  - reflexivity.
Defined.

(** A cache with one capture that cannot be decoded next to two that
    can: the scan returns nothing at all. *)
Lemma C6_counterexample :
  ~ (exists out, run Z.ltb Fixtures.corrupt_env Fixtures.parser_self
                 = Return out).
Proof. intros [out H]. vm_compute in H. discriminate. Qed.

(** C10. The two dictionaries returned by [run] have the same keys: a
    host has a frame exactly when it has hardware facts, and exactly
    when some telemetry file with its host key decoded to at least one
    row. *)
Theorem C10_same_hosts {K V Row Hardware : Type} (ltb : K -> K -> bool)
    (env : Env K V Row Hardware) (self : Self)
    (df : gmap string (list Row)) (hw : gmap string Hardware) (st : list K) :
  run ltb env self = Return (df, hw, st) ->
  dom df = dom hw /\
  (forall host, is_Some (df !! host) <-> is_Some (hw !! host)) /\
  exists tf listing,
    _time_frame ltb env self = Return tf /\
    os_listdir env (_rawdir self) = Return listing /\
    forall host,
      is_Some (hw !! host) <->
      host_rows env self tf host (sorted listing) <> [].
Proof.
  intros Hrun.
  apply run_inv in Hrun as (tf & listing & Htf & Hls & Hloop & _).
  destruct (run_loop_spec env self tf _ _ _ Hloop (well_formed_empty))
    as [[_ Hdom] _]. simpl in Hdom.
  assert (Hiff : forall host, is_Some (df !! host) <-> is_Some (hw !! host)).
  { intros host. rewrite <- !elem_of_dom. by rewrite Hdom. }
  split; [done|]. split; [done|].
  exists tf, listing. repeat (split; [done|]).
  intros host. rewrite <- Hiff.
  pose proof (run_loop_lookup env self tf _ _ host Hloop) as Hlk.
  simpl in Hlk. rewrite Hlk.
  destruct (host_rows env self tf host (sorted listing)); split.
  - by intros [? ?].
  - done.
  - done.
  - by eexists.
Qed.

Lemma C10_same_hosts_witness :
  dom ({[ "web1" := [(10, "r1"); (20, "r2"); (40, "r3")] ]}
         : gmap string (list (Z * string)))
  = dom ({[ "web1" := "cpus of /tmp/raw/web1-20230102-000000.raw.gz" ]}
           : gmap string string).
Proof.
  apply (C10_same_hosts Z.ltb Fixtures.cache_env Fixtures.parser_self _ _
           [10; 50; 30]).
  vm_compute. reflexivity.
Defined.

(** ** The security-group section of the Azure report *)

Import Azure AzureSpec.

(** The query only ever appends to the log. *)
Lemma security_groups_log env api (s : State) :
  exists recs,
    snd (security_groups put_log env api s) =
    {| _information := _information s; log := log s ++ recs |}.
Proof.
  unfold security_groups, mbind, M_mbind, bind, lift, LOG, modify. simpl.
  destruct (requests_get env _ _ _) as [response|e]; simpl.
  2:{ exists []. rewrite app_nil_r. by destruct s. }
  destruct (status_code response =? 200); simpl.
  - destruct (fromstring env (text response)) as [root|e]; simpl.
    + exists []. rewrite app_nil_r. by destruct s.
    + destruct (is_ParseError e); simpl.
      * by eexists [_].
      * exists []. rewrite app_nil_r. by destruct s.
  - by eexists [_].
Qed.


Lemma update_section_fresh (n : string) (f : Section -> Section)
    (doc : list Section) :
  has_section n doc = false -> update_section n f doc = doc.
Proof.
  unfold has_section, update_section. induction doc as [|sec doc IH]; simpl.
  - done.
  - rewrite orb_false_iff. intros [-> H]. by rewrite IH.
Qed.



(** * Further properties of the Collector *)

Import CollectorTrace.

Section Emits.

Context (P : event -> Prop).

Lemma emits_ret {A} (a : A) : emits P (mret a).
Proof. intros w. exists []. by rewrite app_nil_r. Qed.

Lemma emits_raise {A} (e : exc) : emits P (@raise World A e).
Proof. intros w. exists []. by rewrite app_nil_r. Qed.

Lemma emits_lift {A} (r : result A) : emits P (lift r).
Proof. intros w. exists []. by rewrite app_nil_r. Qed.

Lemma emits_get : emits P (@get World).
Proof. intros w. exists []. by rewrite app_nil_r. Qed.

Lemma emits_emit (ev : event) : P ev -> emits P (emit ev).
Proof. intros H w. exists [ev]. split; [done|]. by constructor. Qed.

Lemma emits_bind {A B} (m : M World A) (f : A -> M World B) :
  emits P m -> (forall a, emits P (f a)) -> emits P (m ≫= f).
Proof.
  intros Hm Hf w. unfold mbind, M_mbind, bind.
  destruct (Hm w) as (evs & E & HP).
  destruct (m w) as [[a|e] w1]; simpl in E.
  - destruct (Hf a w1) as (evs' & E' & HP').
    exists (evs ++ evs'). rewrite E', E, app_assoc.
    split; [done|]. by apply Forall_app.
  - by exists evs.
Qed.

Lemma emits_for {A} (l : list A) (body : A -> M World unit) :
  (forall a, emits P (body a)) -> emits P (for_ l body).
Proof.
  intros Hb. induction l as [|a l IH]; simpl.
  - apply (emits_ret tt).
  - apply (emits_bind (body a)); [apply Hb | intros _; apply IH].
Qed.

End Emits.

Lemma emits_download_file P env c remote dest utime :
  P (Download c remote dest utime) ->
  emits P (ssh_download_file env c remote dest utime).
Proof.
  intros HP. unfold ssh_download_file.
  apply emits_bind; [by apply emits_emit|]. intros _.
  apply emits_bind; [apply emits_lift|]. intros sz.
  destruct (snd utime); try apply emits_raise.
  intros w. exists []. by rewrite app_nil_r.
Qed.

Lemma emits_collect_file P env self c row :
  (forall r d u, P (Download c r d u)) ->
  emits P (_collect_file env self c row).
Proof.
  intros HP. unfold _collect_file.
  apply emits_bind; [apply emits_lift|]. intros info.
  apply emits_bind; [apply emits_get|]. intros w0.
  apply emits_bind; [apply emits_lift|]. intros d.
  destruct (negb d); [apply emits_ret|].
  apply emits_bind; [apply emits_lift|]. intros a.
  apply emits_bind; [apply emits_lift|]. intros m.
  by apply emits_download_file.
Qed.

Lemma emits_get_ssh_client P env self h u p b :
  (forall c b', P (Connect c b')) ->
  emits P (_get_ssh_client env self h u p b).
Proof.
  intros HP. unfold _get_ssh_client, ssh_connect.
  apply emits_bind; [|intros; apply emits_ret].
  apply emits_bind; [by apply emits_emit|].
  intros _. destruct (net_connect _ _ _); [apply emits_raise|apply emits_ret].
Qed.

Lemma emits_collect P env self h u b :
  (forall ev, ~ is_agent ev -> P ev) -> emits P (_collect env self h u b).
Proof.
  intros HP. unfold _collect.
  apply emits_bind; [apply emits_get_ssh_client; intros; apply HP; exact id|].
  intros c. apply emits_bind.
  { unfold ssh_stat. apply emits_bind; [apply emits_emit, HP; exact id|].
    intros _. apply emits_lift. }
  intros rows. apply emits_bind.
  { apply emits_for. intros row. apply emits_collect_file.
    intros; apply HP; exact id. }
  intros _. apply emits_emit, HP. exact id.
Qed.

Lemma emits_fetch_collectl_lustre P env self :
  (forall ev, ~ is_agent ev -> P ev) ->
  emits P (_fetch_collectl_lustre env self).
Proof.
  intros HP. unfold _fetch_collectl_lustre.
  apply emits_bind.
  { unfold _management_target. apply emits_bind; [apply emits_lift|].
    intros n. destruct (negb (has_ip n)); [apply emits_ret|].
    apply emits_bind; [apply emits_get_ssh_client; intros; apply HP; exact id|].
    intros c. apply emits_bind.
    { unfold ssh_disk_space. apply emits_bind; [apply emits_emit, HP; exact id|].
      intros _. apply emits_lift. }
    intros d. apply emits_bind; [apply emits_emit, HP; exact id|].
    intros _. destruct d; apply emits_ret. }
  intros mt. apply emits_bind; [apply emits_lift|]. intros sn.
  destruct (negb (truthy sn)); [apply emits_ret|].
  apply emits_bind; [apply emits_lift|]. intros hosts.
  apply emits_for. intros item.
  destruct (String.eqb _ _); [apply emits_ret|].
  apply emits_bind; [apply emits_lift|]. intros nat_host.
  by apply emits_collect.
Qed.

(** X1. The key agent is a scope around the whole run: the first event
    of a run loads the private keys of the cluster, the last one
    removes them again, whether the run returns or raises, and the
    agent is not touched in between. *)
Theorem X1_key_agent_scope env self w :
  exists evs,
    trace (snd (Collector.run env self w)) =
      trace w ++ [AgentAdd (private_keys self)] ++ evs
        ++ [AgentRemove (private_keys self)] /\
    Forall (fun ev => ~ is_agent ev) evs.
Proof.
  unfold Collector.run, with_SSHAgent. simpl.
  set (w1 := {| cache := cache w; trace := trace w ++ _ |}).
  set (body := _ ≫= _).
  assert (Hb : emits (fun ev => ~ is_agent ev) body).
  { apply emits_bind.
    - apply emits_for. intros n. by apply emits_collect.
    - intros _. by apply emits_fetch_collectl_lustre. }
  destruct (Hb w1) as (evs & E & HP). exists evs. split; [|done].
  destruct (body w1) as [r w2]. simpl in *. rewrite E.
  by rewrite <- !app_assoc.
Qed.

(** X2. No run transfers a file: whatever the fleet and the cache, the
    cache after [run] is the cache before it and no [download_file] is
    among the actions of the run. *)
Theorem X2_run_never_downloads env self w :
  cache (snd (Collector.run env self w)) = cache w /\
  exists evs, trace (snd (Collector.run env self w)) = trace w ++ evs /\
              Forall (fun ev => ~ is_download ev) evs.
Proof.
  destruct (inert_run env self w) as (evs & E & HP). rewrite E. simpl.
  split; [done|]. exists evs. split; [done|].
  eapply Forall_impl; [exact HP|]. intros [] H; simpl in *; tauto.
Qed.

Lemma for_unselected env self c rows w :
  Forall (unselected self (cache w)) rows ->
  for_ rows (_collect_file env self c) w = (Return tt, w).
Proof.
  induction rows as [|row rows IH]; intros Hall; simpl; [done|].
  inversion Hall as [|? ? (info & Hrow & Hsame) Hrest]; subst.
  unfold bind. rewrite (collect_file_skip env self c row info w Hrow Hsame).
  by apply IH.
Qed.

(** X3. A host on which the diff rule selects none of the listed
    files costs one session and one listing: when every row of [stat]
    gives a descriptor that compares equal to the cached file of that
    name, [_collect] connects, lists, closes the session and returns,
    and the cache is left as it was. *)
Theorem X3_collect_nothing_selected env self h u b w rows :
  net_connect env (collect_session self h u b) PyNone = None ->
  net_stat env (collect_session self h u b) COLLECTL_PATH
    ["%s"; "%X"; "%Y"; "%n"] = Return rows ->
  Forall (unselected self (cache w)) rows ->
  _collect env self h u b w =
  (Return tt,
   {| cache := cache w;
      trace := trace w ++ [Connect (collect_session self h u b) PyNone;
                           Stat (collect_session self h u b);
                           Close (collect_session self h u b)] |}).
Proof.
  intros Hconn Hstat Hall.
  unfold _collect, _get_ssh_client, ssh_connect, ssh_stat, ssh_close.
  unfold mbind, M_mbind, bind, mret, M_ret, ret, lift, emit, modify. simpl.
  fold (collect_session self h u b). rewrite Hconn, Hstat. simpl.
  rewrite for_unselected by done. simpl. by rewrite <- !app_assoc.
Qed.

Lemma X3_collect_nothing_selected_witness :
  fst (_collect (Fixtures.fleet "") Fixtures2.one_node "10.0.0.1" "ubuntu"
         PyNone (Fixtures.world_of Fixtures.cache_equal)) = Return tt.
Proof.
  rewrite (X3_collect_nothing_selected (Fixtures.fleet "") Fixtures2.one_node
             "10.0.0.1" "ubuntu" PyNone
             (Fixtures.world_of Fixtures.cache_equal) [Fixtures.web1_row]).
  - reflexivity.
  - reflexivity.
  - reflexivity.
  - constructor; [|constructor]. exists Fixtures.web1_info.
    split; vm_compute; reflexivity.
Defined.

(** X4. [_collect] closes its session exactly when it returns: a normal
    return ends with the one [close] of the session, and when the
    handshake, the listing or the handling of a file raises, the
    session is left open. *)
Theorem X4_session_closed_iff_returns env self h u b w :
  exists evs,
    trace (snd (_collect env self h u b w)) = trace w ++ evs /\
    match fst (_collect env self h u b w) with
    | Return _ =>
        exists evs', evs = evs' ++ [Close (collect_session self h u b)] /\
                     Forall (fun ev => ~ is_close ev) evs'
    | Raise _ => Forall (fun ev => ~ is_close ev) evs
    end.
Proof.
  unfold _collect, _get_ssh_client, ssh_connect, ssh_stat, ssh_close.
  unfold mbind, M_mbind, bind, mret, M_ret, ret, lift, emit, modify, raise.
  simpl. fold (collect_session self h u b).
  set (c := collect_session self h u b).
  destruct (net_connect env c PyNone) as [e|]; simpl.
  { exists [Connect c PyNone]. split; [done|]. constructor; [exact id|done]. }
  destruct (net_stat env c _ _) as [rows|e]; simpl.
  2:{ exists [Connect c PyNone; Stat c]. split; [by rewrite <- app_assoc|].
      repeat constructor; exact id. }
  set (w2 := {| cache := cache w; trace := _ |}).
  destruct (emits_for (fun ev => ~ is_close ev) rows (_collect_file env self c))
    with (w := w2) as (evs & E & HP).
  { intros row. apply emits_collect_file. intros; exact id. }
  destruct (for_ rows (_collect_file env self c) w2) as [[[]|e] w3];
    simpl in *; rewrite E; simpl.
  - exists (Connect c PyNone :: Stat c :: evs ++ [Close c]). split.
    + by rewrite <- !app_assoc.
    + exists (Connect c PyNone :: Stat c :: evs). split; [done|].
      repeat constructor; try exact id. done.
  - exists (Connect c PyNone :: Stat c :: evs). split.
    + by rewrite <- !app_assoc.
    + repeat constructor; try exact id. done.
Qed.

(** X5. The shared-file-system pass looks the NAT device up for every
    server it visits: on a stack that lists servers and no entry
    [NATDevice], the pass raises [KeyError] and opens no session to any
    server. *)
Theorem X5_lustre_needs_nat_device env self w w1 mt sn hosts :
  _management_target env self w = (Return mt, w1) ->
  icel_stack_name env mt = Return sn ->
  truthy sn = true ->
  icel_instances env sn = Return hosts ->
  hosts <> [] ->
  Forall (fun item => fst item <> NATDevice) hosts ->
  _fetch_collectl_lustre env self w = (Raise (Exc KeyError NATDevice), w1).
Proof.
  intros Hmt Hsn Htr Hhosts Hne Hall. unfold _fetch_collectl_lustre.
  unfold mbind, M_mbind, bind, lift. rewrite Hmt, Hsn, Htr. simpl.
  rewrite Hhosts.
  assert (Hget : getitem hosts NATDevice = Raise (Exc KeyError NATDevice)).
  { unfold getitem. clear -Hall. induction Hall as [|item l Hi _ IH]; [done|].
    simpl. destruct (String.eqb (fst item) NATDevice) eqn:E.
    - by apply String.eqb_eq in E.
    - exact IH. }
  destruct hosts as [|item hosts]; [done|]. simpl.
  inversion Hall as [|? ? Hi _]; subst. unfold bind.
  apply String.eqb_neq in Hi. rewrite Hi, Hget. reflexivity.
Qed.

Lemma X5_lustre_needs_nat_device_witness :
  fst (_fetch_collectl_lustre Fixtures2.fleet_no_nat Fixtures2.one_node
         (Fixtures.world_of Fixtures.cache_equal))
  = Raise (Exc KeyError NATDevice).
Proof.
  erewrite (X5_lustre_needs_nat_device Fixtures2.fleet_no_nat
              Fixtures2.one_node _ _ (PyStr "fs-1234") (PyStr "icel-stack")
              [("mgs", "10.0.0.5"); ("oss0", "10.0.0.6")]).
  - reflexivity.
  - vm_compute. reflexivity.
  - reflexivity.
  - reflexivity.
  - reflexivity.
  - discriminate.
  - repeat constructor; discriminate.
Defined.

(** X6. On a stack that has a NAT device, the shared-file-system pass
    is the collection, in the order of the stack, from every entry
    whose name is not [NATDevice], each called with the address of the
    NAT device as its bastion; the NAT device itself is never collected
    from. *)
Theorem X6_lustre_skips_nat_device env self w w1 mt sn hosts nat_host :
  _management_target env self w = (Return mt, w1) ->
  icel_stack_name env mt = Return sn ->
  truthy sn = true ->
  icel_instances env sn = Return hosts ->
  getitem hosts NATDevice = Return nat_host ->
  _fetch_collectl_lustre env self w =
  for_ (filter (fun item => fst item <> NATDevice) hosts)
       (fun item => _collect env self (snd item) "ec2-user" (PyStr nat_host))
       w1.
Proof.
  intros Hmt Hsn Htr Hhosts Hget. unfold _fetch_collectl_lustre.
  unfold mbind, M_mbind, bind, lift. rewrite Hmt, Hsn, Htr. simpl.
  rewrite Hhosts. rewrite Hget. clear Hmt Hhosts Hget. revert w1.
  induction hosts as [|item hosts IH]; intros w1; [done|].
  rewrite filter_cons. simpl.
  destruct (decide (fst item <> NATDevice)) as [Hn|Hn].
  - apply String.eqb_neq in Hn. unfold bind at 1. rewrite Hn. simpl.
    unfold bind at 1.
    destruct (_collect env self (snd item) "ec2-user" (PyStr nat_host) w1)
      as [[[]|e] w2]; [apply IH | done].
  - apply dec_stable in Hn. apply String.eqb_eq in Hn.
    unfold bind at 1. rewrite Hn. simpl. apply IH.
Qed.

Lemma X6_lustre_skips_nat_device_witness :
  Forall (fun ev => match ev with
                    | Connect c _ => host c <> "54.0.0.1"
                    | _ => True
                    end)
    (trace (snd (_fetch_collectl_lustre Fixtures.fleet_lustre
                   Fixtures2.one_node
                   (Fixtures.world_of Fixtures.cache_equal)))).
Proof.
  rewrite (X6_lustre_skips_nat_device Fixtures.fleet_lustre
             Fixtures2.one_node (Fixtures.world_of Fixtures.cache_equal)
             (snd (_management_target Fixtures.fleet_lustre Fixtures2.one_node
                     (Fixtures.world_of Fixtures.cache_equal)))
             (PyStr "fs-1234") (PyStr "icel-stack")
             [(NATDevice, "54.0.0.1"); ("mgs", "10.0.0.5")] "54.0.0.1").
  - vm_compute. repeat constructor; discriminate.
  - vm_compute. reflexivity.
  - reflexivity.
  - reflexivity.
  - reflexivity.
  - reflexivity.
Defined.

(** * Further properties of the Parser *)

Import ParserSpec2.

Section ParserHardware.

Context {K V Row Hardware : Type}.
Variable env : Parser.Env K V Row Hardware.
Variable self : Parser.Self.
Variable tf : Parser.Time K.

Let acc_t : Type := gmap string (list Row) * gmap string Hardware.

Lemma host_hardware_cons (h f : string) (files : list string) :
  host_hardware env self tf h (f :: files) =
  match host_hardware env self tf h files with
  | Some hardware => Some hardware
  | None => if decide (host_key f = h) then contributed env self tf f
            else None
  end.
Proof.
  unfold host_hardware. rewrite filter_cons.
  destruct (decide (host_key f = h)); [|by destruct (last _)].
  simpl. destruct (contributed env self tf f) as [x|]; simpl.
  - rewrite last_cons. by destruct (last _).
  - by destruct (last _).
Qed.

Lemma run_file_hardware (acc acc' : acc_t) (f h : string) :
  run_file env self tf acc f = Return acc' ->
  snd acc' !! h =
  match (if decide (host_key f = h) then contributed env self tf f else None)
  with
  | Some hardware => Some hardware
  | None => snd acc !! h
  end.
Proof.
  destruct acc as [df hw]. unfold run_file, contributed, loaded. intros H.
  destruct (endswith f COLLECTL_SUFFIX); simpl in H.
  2:{ inversion H; subst. by destruct (decide _). }
  unfold mbind, result_mbind, result_bind in H.
  destruct (load_collectl env _ _ _) as [[data hardware]|e]; [|discriminate].
  destruct data as [|r data]; simpl in H.
  { inversion H; subst. by destruct (decide _). }
  assert (Hhw : snd acc' = <[host_key f := hardware]> hw)
    by (destruct (df !! host_key f); by inversion H).
  rewrite Hhw. simpl. destruct (decide (host_key f = h)) as [<-|N].
  - by rewrite lookup_insert_eq.
  - by rewrite lookup_insert_ne.
Qed.

Lemma run_loop_hardware (files : list string) (acc acc' : acc_t) (h : string) :
  run_loop env self tf files acc = Return acc' ->
  snd acc' !! h =
  match host_hardware env self tf h files with
  | Some hardware => Some hardware
  | None => snd acc !! h
  end.
Proof.
  revert acc. induction files as [|f files IH]; intros acc H.
  - by inversion H.
  - simpl in H. unfold mbind, result_mbind, result_bind in H.
    destruct (run_file env self tf acc f) as [acc1|e] eqn:E; [|discriminate].
    rewrite (IH _ H), host_hardware_cons, (run_file_hardware _ _ _ h E).
    by destruct (host_hardware env self tf h files).
Qed.

Lemma run_loop_all_readable (files : list string) (acc acc' : acc_t) :
  run_loop env self tf files acc = Return acc' ->
  Forall (readable env self tf) files.
Proof.
  revert acc. induction files as [|f files IH]; intros acc H; [constructor|].
  simpl in H. unfold mbind, result_mbind, result_bind in H.
  destruct (run_file env self tf acc f) as [acc1|e] eqn:E; [|discriminate].
  constructor; [|by eapply IH].
  intros Hsuf. destruct acc as [df hw]. unfold run_file in E.
  rewrite Hsuf in E. simpl in E. unfold loaded.
  destruct (load_collectl env _ _ _) as [[data hardware]|e]; [|discriminate].
  by exists data, hardware.
Qed.

End ParserHardware.

(** X7. The hardware facts returned for a host are those decoded from
    the last file, in sorted order of the names, that has the host's
    key and at least one row: a later capture replaces the facts of an
    earlier one, and a capture without rows replaces nothing. *)
Theorem X7_hardware_last_wins {K V Row Hardware : Type} (ltb : K -> K -> bool)
    (env : Parser.Env K V Row Hardware) (self : Parser.Self)
    (df : gmap string (list Row)) (hw : gmap string Hardware) (st : list K) :
  Parser.run ltb env self = Return (df, hw, st) ->
  exists tf listing,
    _time_frame ltb env self = Return tf /\
    os_listdir env (_rawdir self) = Return listing /\
    forall host,
      hw !! host = host_hardware env self tf host (sorted listing).
Proof.
  intros Hrun.
  apply run_inv in Hrun as (tf & listing & Htf & Hls & Hloop & _).
  exists tf, listing. repeat (split; [done|]). intros host.
  pose proof (run_loop_hardware env self tf _ _ _ host Hloop) as H.
  simpl in H. rewrite lookup_empty in H. rewrite H.
  by destruct (host_hardware _ _ _ _ _).
Qed.

Lemma X7_hardware_last_wins_witness :
  exists tf listing,
    _time_frame Z.ltb Fixtures.cache_env Fixtures.parser_self = Return tf /\
    os_listdir Fixtures.cache_env "/tmp/raw" = Return listing /\
    forall host,
      ({[ "web1" := "cpus of /tmp/raw/web1-20230102-000000.raw.gz" ]}
         : gmap string string) !! host =
      host_hardware Fixtures.cache_env Fixtures.parser_self tf host
        (sorted listing).
Proof.
  apply (X7_hardware_last_wins Z.ltb Fixtures.cache_env Fixtures.parser_self
           {[ "web1" := [(10, "r1"); (20, "r2"); (40, "r3")] ]} _ [10; 50; 30]).
  vm_compute. reflexivity.
Defined.

(** ** The order of the directory listing *)

Lemma ascii_compare_trans (x y z : ascii) :
  Ascii.compare x y = Lt -> Ascii.compare y z = Lt -> Ascii.compare x z = Lt.
Proof.
  unfold Ascii.compare. rewrite !N.compare_lt_iff. apply N.lt_trans.
Qed.

Lemma ascii_compare_refl (x : ascii) : Ascii.compare x x = Eq.
Proof. unfold Ascii.compare. apply N.compare_refl. Qed.

Lemma string_compare_lt_trans (a b c : string) :
  String.compare a b = Lt -> String.compare b c = Lt ->
  String.compare a c = Lt.
Proof.
  revert b c. induction a as [|x a IH]; intros [|y b] [|z c]; simpl;
    try done.
  destruct (Ascii.compare x y) eqn:E1; try done;
    destruct (Ascii.compare y z) eqn:E2; try done.
  - apply Ascii.compare_eq_iff in E1, E2. subst.
    rewrite ascii_compare_refl. apply IH.
  - apply Ascii.compare_eq_iff in E1. subst. by rewrite E2.
  - apply Ascii.compare_eq_iff in E2. subst. by rewrite E1.
  - by rewrite (ascii_compare_trans x y z).
Qed.

Lemma str_le_trans (a b c : string) : str_le a b -> str_le b c -> str_le a c.
Proof.
  unfold str_le, String.leb. intros H1 H2.
  destruct (String.compare a b) eqn:E1; [| |discriminate].
  - apply String.compare_eq_iff in E1. by subst.
  - destruct (String.compare b c) eqn:E2; [| |discriminate].
    + apply String.compare_eq_iff in E2. subst. by rewrite E1.
    + by rewrite (string_compare_lt_trans a b c).
Qed.

Lemma ltb_str_le (x y : string) : String.ltb x y = true -> str_le x y.
Proof. unfold String.ltb, str_le, String.leb. by destruct (String.compare x y). Qed.

Lemma not_ltb_str_le (x y : string) : String.ltb x y = false -> str_le y x.
Proof.
  unfold String.ltb, str_le, String.leb. rewrite (String.compare_antisym y x).
  by destruct (String.compare x y).
Qed.

Lemma insert_sorted_perm (x : string) (l : list string) :
  insert_sorted x l ≡ₚ x :: l.
Proof.
  induction l as [|y l IH]; simpl; [done|].
  destruct (String.ltb x y); [done|]. rewrite IH. apply Permutation_swap.
Qed.

Lemma sorted_perm (l : list string) : sorted l ≡ₚ l.
Proof.
  unfold sorted. transitivity (rev l); [|symmetry; apply Permutation_rev].
  generalize (rev l). intros l'. induction l' as [|x l' IH]; simpl; [done|].
  by rewrite insert_sorted_perm, IH.
Qed.

Lemma insert_sorted_sorted (x : string) (l : list string) :
  Sorted.StronglySorted str_le l -> Sorted.StronglySorted str_le (insert_sorted x l).
Proof.
  induction 1 as [|y l Hl IH Hy]; simpl.
  - repeat constructor.
  - destruct (String.ltb x y) eqn:E.
    + constructor; [by constructor|]. apply ltb_str_le in E.
      constructor; [done|]. eapply Forall_impl; [exact Hy|].
      intros z Hz. by apply str_le_trans with y.
    + constructor; [done|]. rewrite insert_sorted_perm.
      constructor; [by apply not_ltb_str_le | done].
Qed.

Lemma sorted_sorted (l : list string) : Sorted.StronglySorted str_le (sorted l).
Proof.
  unfold sorted. induction (rev l) as [|x l' IH]; simpl; [constructor|].
  by apply insert_sorted_sorted.
Qed.

(** Two listings of the same entries sort to the same list. *)
Lemma sorted_unique (l l' : list string) : l ≡ₚ l' -> sorted l = sorted l'.
Proof.
  intros Hp. apply (sorting.StronglySorted_unique_strong str_le).
  - intros x y _ _. apply String.leb_antisym.
  - apply sorted_sorted.
  - apply sorted_sorted.
  - by rewrite !sorted_perm.
Qed.

(** X8. [Parser.run] returns exactly when the timing log can be read and
    has at least one checkpoint, the cache directory can be listed, and
    the decoder returns for every entry of the listing that carries the
    telemetry suffix; entries without the suffix are never decoded. *)
Theorem X8_run_returns_iff {K V Row Hardware : Type} (ltb : K -> K -> bool)
    (env : Parser.Env K V Row Hardware) (self : Parser.Self) :
  ((exists tf, _time_frame ltb env self = Return tf) <->
   (exists timings, get_bcbio_timings env (_bcbio_log self) = Return timings /\
                    timings <> []))
  /\ ((exists out, Parser.run ltb env self = Return out) <->
      (exists tf listing,
         _time_frame ltb env self = Return tf /\
         os_listdir env (_rawdir self) = Return listing /\
         Forall (readable env self tf) listing)).
Proof.
  split.
  - unfold _time_frame, mbind, result_mbind, result_bind. split.
    + intros [tf H].
      destruct (get_bcbio_timings env (_bcbio_log self)) as [timings|e];
        [|discriminate].
      exists timings. split; [done|]. by intros ->.
    + intros (timings & -> & Hne). destruct timings as [|[k v] t]; [done|].
      simpl. by eexists.
  - split.
    + intros [[[df hw] st] Hrun].
      apply run_inv in Hrun as (tf & listing & Htf & Hls & Hloop & _).
      exists tf, listing. repeat (split; [done|]).
      apply run_loop_all_readable in Hloop. by rewrite sorted_perm in Hloop.
    + intros (tf & listing & Htf & Hls & Hall).
      rewrite <- sorted_perm in Hall.
      destruct (run_total ltb env self tf listing Htf Hls Hall)
        as (df & hw & Hrun).
      by eexists.
Qed.

Lemma X8_run_returns_iff_witness :
  ~ (exists out, Parser.run Z.ltb Fixtures.silent_env Fixtures.parser_self = Return out).
Proof.
  intros Hrun.
  apply (proj1 (proj2 (X8_run_returns_iff Z.ltb Fixtures.silent_env
                         Fixtures.parser_self))) in Hrun
    as (tf & listing & Htf & _).
  assert (Hlog : exists tf, _time_frame Z.ltb Fixtures.silent_env Fixtures.parser_self
                            = Return tf) by eauto.
  apply (proj1 (proj1 (X8_run_returns_iff Z.ltb Fixtures.silent_env
                         Fixtures.parser_self))) in Hlog
    as (timings & Hlog & Hne).
  inversion Hlog; subst. by apply Hne.
Defined.

Lemma match_lit_inv p s r : match_lit p s = Some r -> s = p +:+ r.
Proof.
  revert s. induction p as [|a p IH]; intros s H; simpl in *.
  - by inversion H.
  - destruct s as [|b s]; [discriminate|].
    destruct (Ascii.eqb a b) eqn:E; [|discriminate].
    apply Ascii.eqb_eq in E. subst b. by rewrite (IH s H).
Qed.

Lemma match_digits_inv n s r :
  match_digits n s = Some r ->
  exists d, String.length d = n /\ all_digits d = true /\ s = d +:+ r.
Proof.
  revert s. induction n as [|n IH]; intros s H; simpl in *.
  - exists "". by inversion H.
  - destruct s as [|c s]; [discriminate|].
    destruct (is_digit c) eqn:E; [|discriminate].
    destruct (IH s H) as (d & L & D & ->).
    exists (String c d). simpl. by rewrite E, D, L.
Qed.

Lemma match_end_inv r : match_end r = true -> r = "" \/ r = newline.
Proof.
  unfold match_end, newline. rewrite orb_true_iff, !String.eqb_eq. tauto.
Qed.

(** What the pattern matches at the head of a name is a hyphen, eight
    digits, a hyphen, six digits and the suffix, up to the end of the
    name or to its final line feed. *)
Lemma match_here_inv s r :
  match_here s = Some r ->
  exists date time,
    String.length date = 8%nat /\ all_digits date = true /\
    String.length time = 6%nat /\ all_digits time = true /\
    (r = "" \/ r = newline) /\
    s = "-" +:+ date +:+ "-" +:+ time +:+ ".raw.gz" +:+ r.
Proof.
  unfold match_here. intros H.
  apply bind_Some in H as (s1 & E1 & H). apply bind_Some in H as (s2 & E2 & H).
  apply bind_Some in H as (s3 & E3 & H). apply bind_Some in H as (s4 & E4 & H).
  apply bind_Some in H as (s5 & E5 & H).
  destruct (match_end s5) eqn:E6; [|discriminate].
  inversion H; subst s5. clear H.
  apply match_lit_inv in E1, E3, E5.
  apply match_digits_inv in E2 as (date & Ld & Hd & E2).
  apply match_digits_inv in E4 as (time & Lt & Ht & E4).
  apply match_end_inv in E6.
  exists date, time. repeat (split; [done|]).
  by rewrite E1, E2, E3, E4, E5.
Qed.

Lemma match_here_suffix date time r :
  String.length date = 8%nat -> all_digits date = true ->
  String.length time = 6%nat -> all_digits time = true ->
  r = "" \/ r = newline ->
  match_here ("-" +:+ date +:+ "-" +:+ time +:+ ".raw.gz" +:+ r) = Some r.
Proof.
  intros Ld Hd Lt Ht Hr. unfold match_here.
  rewrite match_lit_app, Some_bind, <- Ld, (match_digits_app _ _ Hd), Some_bind.
  rewrite match_lit_app, Some_bind, <- Lt, (match_digits_app _ _ Ht), Some_bind.
  rewrite match_lit_app, Some_bind.
  by destruct Hr as [-> | ->].
Qed.

(** A name with a match of the pattern somewhere in it is not its own
    host key: the key is shorter. *)
Lemma host_key_shrinks h ts r :
  match_here ts = Some r ->
  (String.length (host_key (h +:+ ts)) < String.length (h +:+ ts))%nat.
Proof.
  intros Hts. induction h as [|c h IH].
  - change ("" +:+ ts) with ts. destruct (match_here_length _ _ Hts) as [L1 L2].
    destruct ts as [|t0 ts]; [simpl in L1; lia|].
    cbn [host_key]. rewrite Hts. lia.
  - change (String c h +:+ ts) with (String c (h +:+ ts)). cbn [host_key].
    destruct (match_here (String c (h +:+ ts))) as [r'|] eqn:E.
    + destruct (match_here_length _ _ E) as [L1 L2]. lia.
    + cbn [String.length]. lia.
Qed.

(** The scan of [re.sub] either leaves the name as it is or has found a
    match of the pattern at one of its positions. *)
Lemma host_key_cases s :
  host_key s = s \/ exists h ts r, s = h +:+ ts /\ match_here ts = Some r.
Proof.
  induction s as [|c s IH]; [by left|]. cbn [host_key].
  destruct (match_here (String c s)) as [r|] eqn:E.
  - right. by exists "", (String c s), r.
  - destruct IH as [-> | (h & ts & r & -> & Hts)]; [by left|].
    right. by exists (String c h), ts, r.
Qed.

Lemma capture_name_rest hostname date time rest :
  capture_name hostname date time +:+ rest
  = hostname +:+ ("-" +:+ date +:+ "-" +:+ time +:+ ".raw.gz" +:+ rest).
Proof. unfold capture_name. by rewrite !string_app_assoc. Qed.

(** X9. [re.sub] leaves a file name as it is exactly when the name does
    not read [<hostname>-<8 digits>-<6 digits>.raw.gz] (up to a final
    line feed): a cached file such as [web1.raw.gz] is filed under its
    whole name, and so is one whose date has seven digits or holds a
    letter. *)
Theorem X9_host_key_unchanged :
  (forall s : string, host_key s = s <-> ~ ends_in_timestamp s) /\
  host_key "web1.raw.gz" = "web1.raw.gz" /\
  host_key "web1-2023010-000000.raw.gz" = "web1-2023010-000000.raw.gz" /\
  host_key "web1-2023010a-000000.raw.gz" = "web1-2023010a-000000.raw.gz".
Proof.
  split; [|by vm_compute]. intros s. split.
  - intros Hs (h & d & t & r & Ld & Hd & Lt & Ht & Hr & ->).
    rewrite capture_name_rest in Hs.
    pose proof (host_key_shrinks h _ r (match_here_suffix d t r Ld Hd Lt Ht Hr))
      as L.
    rewrite Hs in L. lia.
  - intros Hs. destruct (host_key_cases s) as [|(h & ts & r & -> & Hts)]; [done|].
    exfalso. apply Hs.
    apply match_here_inv in Hts as (d & t & Ld & Hd & Lt & Ht & Hr & ->).
    exists h, d, t, r. repeat (split; [done|]).
    by rewrite capture_name_rest.
Qed.

(** X10. The result of [Parser.run] does not depend on the order in
    which the cache directory is listed. *)
Theorem X10_listing_order_irrelevant {K V Row Hardware : Type}
    (ltb : K -> K -> bool) (env env' : Parser.Env K V Row Hardware)
    (self : Parser.Self) (listing listing' : list string) :
  get_bcbio_timings env' = get_bcbio_timings env ->
  load_collectl env' = load_collectl env ->
  os_listdir env (_rawdir self) = Return listing ->
  os_listdir env' (_rawdir self) = Return listing' ->
  listing ≡ₚ listing' ->
  Parser.run ltb env' self = Parser.run ltb env self.
Proof.
  intros Hlog Hdec Hl Hl' Hperm.
  unfold Parser.run, _time_frame. rewrite Hlog.
  unfold mbind, result_mbind, result_bind.
  destruct (get_bcbio_timings env (_bcbio_log self)) as [timings|e]; [|done].
  destruct (py_min ltb (keys timings)) as [lo|e]; [|done].
  destruct (py_max ltb (keys timings)) as [hi|e]; [|done].
  rewrite Hl, Hl', (sorted_unique _ _ Hperm).
  set (tf := {| start := lo; end_ := hi; steps := keys timings |}).
  assert (Hloop : forall files acc,
    run_loop env' self tf files acc = run_loop env self tf files acc).
  { induction files as [|f files IH]; intros acc; simpl; [done|].
    unfold mbind, result_mbind, result_bind.
    assert (Hf : run_file env' self tf acc f = run_file env self tf acc f)
      by (unfold run_file; by rewrite Hdec).
    rewrite Hf. destruct (run_file env self tf acc f); [apply IH | done]. }
  simpl. by rewrite Hloop.
Qed.

Lemma X10_listing_order_irrelevant_witness :
  Parser.run Z.ltb reordered_env Fixtures.parser_self
  = Parser.run Z.ltb Fixtures.cache_env Fixtures.parser_self.
Proof.
  apply (X10_listing_order_irrelevant Z.ltb Fixtures.cache_env reordered_env
           Fixtures.parser_self
           [Fixtures.web1_day2; "notes.txt"; Fixtures.db1_day1;
            Fixtures.web1_day1]
           [Fixtures.web1_day1; Fixtures.db1_day1; Fixtures.web1_day2;
            "notes.txt"]).
  - reflexivity.
  - reflexivity.
  - reflexivity.
  - reflexivity.
  - apply (Permutation_cons_app [Fixtures.web1_day1; Fixtures.db1_day1]
             ["notes.txt"] Fixtures.web1_day2).
    apply (Permutation_cons_app [Fixtures.web1_day1; Fixtures.db1_day1]
             [] "notes.txt").
    apply perm_swap.
Defined.

(** * Pack._remove_empty *)

Import Pack.

(** Induction on nested arguments. *)
Lemma value_ind (P : value -> Prop) :
  P VNone -> (forall z, P (VInt z)) -> (forall s, P (VStr s)) ->
  (forall l, Forall P l -> P (VList l)) ->
  (forall l, Forall P l -> P (VTuple l)) ->
  (forall d, Forall (fun kv => P (snd kv)) d -> P (VDict d)) ->
  forall v, P v.
Proof.
  intros HN HI HS HL HT HD.
  fix IH 1. intros [| z | s | l | l | d].
  - exact HN.
  - apply HI.
  - apply HS.
  - apply HL. induction l as [|x l IHl]; constructor; [apply IH | exact IHl].
  - apply HT. induction l as [|x l IHl]; constructor; [apply IH | exact IHl].
  - apply HD. induction d as [|[k x] d IHd]; constructor;
      [apply IH | exact IHd].
Qed.


Import PackSpec.

Lemma remove_empty_list (l : list value) :
  _remove_empty (VList l) = VList (kept_items l).
Proof. reflexivity. Qed.

Lemma remove_empty_tuple (l : list value) :
  _remove_empty (VTuple l) = VList (kept_items l).
Proof. reflexivity. Qed.

Lemma remove_empty_dict (d : list (string * value)) :
  _remove_empty (VDict d) =
  match kept_entries d with [] => VNone | output => VDict output end.
Proof. reflexivity. Qed.

Lemma clean_not_None (v : value) : clean v = true -> is_not_None v = true.
Proof. by destruct v. Qed.

Lemma kept_items_clean (l : list value) :
  Forall (fun v => _remove_empty v = VNone \/ clean (_remove_empty v) = true) l ->
  forallb clean (kept_items l) = true.
Proof.
  induction 1 as [|x l Hx _ IH]; simpl; [done|].
  destruct (is_not_None (_remove_empty x)) eqn:E; [|done]. simpl.
  rewrite IH, andb_true_r. destruct Hx as [Hx|Hx]; [|done].
  by rewrite Hx in E.
Qed.

Lemma kept_entries_clean (d : list (string * value)) :
  Forall (fun kv => _remove_empty (snd kv) = VNone \/
                    clean (_remove_empty (snd kv)) = true) d ->
  forallb (fun kv => clean (snd kv)) (kept_entries d) = true.
Proof.
  induction 1 as [|[k x] d Hx _ IH]; simpl; [done|]. simpl in Hx.
  destruct (is_not_None (_remove_empty x)) eqn:E; [|done]. simpl.
  rewrite IH, andb_true_r. destruct Hx as [Hx|Hx]; [|done].
  by rewrite Hx in E.
Qed.

Lemma remove_empty_None_or_clean (argument : value) :
  _remove_empty argument = VNone \/ clean (_remove_empty argument) = true.
Proof.
  induction argument as [| z | s | l IH | l IH | d IH] using value_ind.
  - by left.
  - by right.
  - by right.
  - right. rewrite remove_empty_list. by apply kept_items_clean.
  - right. rewrite remove_empty_tuple. by apply kept_items_clean.
  - rewrite remove_empty_dict. pose proof (kept_entries_clean d IH) as H.
    destruct (kept_entries d) as [|kv d'] eqn:E; [by left|]. right. exact H.
Qed.

(** X11. Whatever the argument, [_remove_empty] returns [None] or a
    value in which, at every depth, no [None] is left, no dictionary is
    empty and every tuple has become a list; empty lists, unlike empty
    dictionaries, are kept. *)
Theorem X11_remove_empty_clean (argument : value) :
  (_remove_empty argument = VNone \/ clean (_remove_empty argument) = true)
  /\ _remove_empty (VList [VList []; VDict []]) = VList [VList []].
Proof. split; [apply remove_empty_None_or_clean | reflexivity]. Qed.

Lemma remove_empty_fixpoint (v : value) : clean v = true -> _remove_empty v = v.
Proof.
  induction v as [| z | s | l IH | l IH | d IH] using value_ind;
    intros Hc; try done.
  - rewrite remove_empty_list. f_equal. simpl in Hc.
    induction IH as [|x l Hx _ IHl]; simpl; [done|].
    simpl in Hc. apply andb_true_iff in Hc as [Hcx Hcl].
    rewrite (Hx Hcx), (clean_not_None x Hcx). by rewrite IHl.
  - rewrite remove_empty_dict.
    assert (E : kept_entries d = d).
    { assert (Hall : forallb (fun kv => clean (snd kv)) d = true)
        by (by destruct d).
      clear Hc. induction IH as [|[k x] d Hx _ IHd]; simpl; [done|].
      simpl in Hall, Hx. apply andb_true_iff in Hall as [Hcx Hcl].
      rewrite (Hx Hcx), (clean_not_None x Hcx). by rewrite IHd. }
    rewrite E. by destruct d.
Qed.

(** X12. [_remove_empty] changes nothing in a value that has no [None],
    no empty dictionary and no tuple in it, and applying it twice gives
    what applying it once gives. *)
Theorem X12_remove_empty_idempotent (argument : value) :
  (clean argument = true -> _remove_empty argument = argument)
  /\ _remove_empty (_remove_empty argument) = _remove_empty argument.
Proof.
  split; [apply remove_empty_fixpoint|].
  destruct (remove_empty_None_or_clean argument) as [H|H].
  - by rewrite H.
  - by apply remove_empty_fixpoint.
Qed.

Lemma X12_remove_empty_idempotent_witness :
  _remove_empty (VDict [("cores", VInt 0); ("tags", VList [VStr ""; VList []])])
  = VDict [("cores", VInt 0); ("tags", VList [VStr ""; VList []])].
Proof.
  apply (proj1 (X12_remove_empty_idempotent
                  (VDict [("cores", VInt 0);
                          ("tags", VList [VStr ""; VList []])]))).
  reflexivity.
Defined.

(** * Reconstitute.is_required_resource *)

Import Reconstitute.

Lemma starts_with_prefix {A} `{EqDecision A} (context fresource : list A) :
  starts_with context fresource = true <-> fresource `prefix_of` context.
Proof.
  unfold starts_with. rewrite bool_decide_eq_true. split.
  - intros H. exists (drop (length fresource) context).
    rewrite <- H at 1. by rewrite take_drop.
  - intros [k ->]. by rewrite take_app_length.
Qed.

(** X13. A resource is required exactly when the parallel settings name
    no [fresources] (the key is missing or its list is empty) or one of
    the named resources is a prefix of the context. *)
Theorem X13_is_required_resource {A} `{EqDecision A} (context : list A)
    (fresources : option (list (list A))) :
  is_required_resource context fresources = true <->
  fresources = None \/ fresources = Some [] \/
  exists l f, fresources = Some l /\ f ∈ l /\ f `prefix_of` context.
Proof.
  destruct fresources as [[|f0 l]|]; simpl.
  - split; [by right; left | done].
  - change (starts_with context f0 || existsb (starts_with context) l)
      with (existsb (starts_with context) (f0 :: l)).
    rewrite existsb_exists. split.
    + intros (f & Hin & Hf). right. right. exists (f0 :: l), f.
      split; [done|]. split; [by apply list_elem_of_In|].
      by apply starts_with_prefix.
    + intros [H'|[H'|(l' & f & E & Hin & Hf)]]; [done..|].
      inversion E; subst l'. exists f.
      split; [by apply list_elem_of_In | by apply starts_with_prefix].
  - split; [by left | done].
Qed.

(** * BaseCloudProvider.run_script *)

Import RunScript.

(** X14. When the first remote command, [echo $HOME], fails with an SSH
    error, [_execute_remote] hands back [(None, exc)] and [run_script]
    fails on [home_dir.strip()] with [AttributeError]: the SSH error is
    not reported, the script is not uploaded and the client is not
    closed. *)
Theorem X14_run_script_home_failure (env : RunScript.Env)
    (cluster config script : string) (client : Connection) (e : exc)
    (t : list RunScript.event) :
  connect_frontend env cluster config = Return client ->
  exec_command client _HOME_DIR = Raise e ->
  is_SSHException e = true ->
  run_script env cluster config script t =
  (Raise (Exc AttributeError "strip"), t ++ [Exec _HOME_DIR]).
Proof.
  intros Hc He Hs. unfold run_script, execute, RunScript.emit.
  unfold mbind, M_mbind, bind, lift, modify. rewrite Hc. simpl.
  unfold _execute_remote. rewrite He, Hs. reflexivity.
Qed.

Lemma X14_run_script_home_failure_witness :
  run_script (Fixtures3.frontend Fixtures.conn_closed) "bcbio" "/etc/ec.config"
    "/tmp/run.sh" []
  = (Raise (Exc AttributeError "strip"), [Exec _HOME_DIR]).
Proof.
  apply (X14_run_script_home_failure (Fixtures3.frontend Fixtures.conn_closed)
           "bcbio" "/etc/ec.config" "/tmp/run.sh" Fixtures.conn_closed
           Fixtures.session_closed []); reflexivity.
Defined.

(** X15. Once the home directory is known and the script is uploaded,
    [run_script] returns normally whatever [_execute_remote] answers to
    [chmod] and to [screen], an SSH failure included: it uploads the
    script to [<home>/<basename of script>], makes it executable, starts
    it in a screen session named after the script, with its output
    going to the remote path with [.log] in place of the extension,
    closes the client, and reports nothing. *)
Theorem X15_run_script_ignores_failures (env : RunScript.Env)
    (cluster config script : string) (client : Connection)
    (i o r : ChannelFile) (home err : string) (p1 p2 : slot * slot)
    (t : list RunScript.event) :
  let remote_file := path_join (strip home) (basename script) in
  let chmod := _CHMOD "a+x" remote_file in
  let screen := _SCREEN (fst (splitext (basename script))) remote_file
                  (fst (splitext remote_file) +:+ ".log") in
  connect_frontend env cluster config = Return client ->
  exec_command client _HOME_DIR = Return (i, o, r) ->
  read o = Return home -> read r = Return err ->
  sftp_put env client script remote_file = None ->
  _execute_remote client chmod = Return p1 ->
  _execute_remote client screen = Return p2 ->
  run_script env cluster config script t =
  (Return tt,
   t ++ [Exec _HOME_DIR; Put script remote_file; Exec chmod; Exec screen;
         CloseClient]).
Proof.
  intros remote_file chmod screen Hc He Ho Hr Hput H1 H2.
  unfold run_script, execute, RunScript.emit.
  unfold mbind, M_mbind, bind, lift, modify, mret, M_ret, ret. rewrite Hc.
  simpl. unfold _execute_remote at 1. rewrite He.
  unfold mbind, result_mbind, result_bind. rewrite Ho, Hr. simpl.
  fold remote_file. rewrite Hput. fold chmod. rewrite H1. simpl.
  fold screen. rewrite H2. simpl. by rewrite <- !app_assoc.
Qed.

Lemma X15_run_script_ignores_failures_witness :
  run_script (Fixtures3.frontend Fixtures3.dropping) "bcbio" "/etc/ec.config"
    "/tmp/run.sh" []
  = (Return tt,
     [Exec "echo $HOME"; Put "/tmp/run.sh" "/home/ubuntu/run.sh";
      Exec "chmod a+x /home/ubuntu/run.sh";
      Exec "screen -d -m -S run bash -c '/home/ubuntu/run.sh &> /home/ubuntu/run.log'";
      CloseClient]).
Proof.
  apply (X15_run_script_ignores_failures (Fixtures3.frontend Fixtures3.dropping)
           "bcbio" "/etc/ec.config" "/tmp/run.sh" Fixtures3.dropping
           (Fixtures.stream "")
           (Fixtures.stream ("/home/ubuntu" +:+ String "010" ""))
           (Fixtures.stream "") ("/home/ubuntu" +:+ String "010" "") ""
           (Nothing, Failure Fixtures.session_closed)
           (Nothing, Failure Fixtures.session_closed) []); reflexivity.
Defined.

(** * The Azure queries *)

Import AzureServices AzureSpec2.

Lemma fold_names (inner : string) (l : list Element) (init : gset pyval)
    (v : pyval) :
  v ∈ fold_left
        (fun output e =>
           match Azure.find e (azure inner) with
           | Some name => output ∪ {[ text_of name ]}
           | None => output
           end) l init
  <-> v ∈ init \/
      exists e name, e ∈ l /\ Azure.find e (azure inner) = Some name /\
                     text_of name = v.
Proof.
  revert init. induction l as [|e l IH]; intros init; simpl.
  - split; [by left|]. intros [H|(e & name & H & _)]; [done|].
    by apply elem_of_nil in H.
  - rewrite IH. split.
    + intros [H|(e' & name & Hin & Hf & Ht)].
      * destruct (Azure.find e (azure inner)) as [name|] eqn:E; [|by left].
        apply elem_of_union in H as [H|H]; [by left|].
        apply elem_of_singleton in H. right. exists e, name.
        split; [left|done].
      * right. exists e', name. split; [by right|done].
    + intros [H|(e' & name & Hin & Hf & Ht)].
      * left. destruct (Azure.find e (azure inner)); [|done].
        apply elem_of_union. by left.
      * apply elem_of_cons in Hin as [->|Hin].
        -- left. rewrite Hf. apply elem_of_union. right.
           by apply elem_of_singleton.
        -- right. by exists e', name.
Qed.

(** X16. On a response with status 200 whose body parses,
    [security_groups] logs nothing and returns exactly the texts of the
    first [Name] child of the [NetworkSecurityGroup] children of the
    root; a group without a [Name] child is left out. *)
Theorem X16_security_groups_names {S} (put : LogRecord -> S -> S)
    (env : Azure.Env) (api : AzureAPI) (response : Response) (root : Element)
    (s : S) :
  queried env api = Return response ->
  status_code response = 200 ->
  fromstring env (text response) = Return root ->
  exists names,
    security_groups put env api s = (Return names, s) /\
    forall v, v ∈ names <-> named root "NetworkSecurityGroup" "Name" v.
Proof.
  unfold queried. intros Hq Hs Hp.
  unfold security_groups, mbind, M_mbind, bind, lift.
  rewrite Hq, Hs, Hp. simpl. eexists. split; [reflexivity|].
  intros v. rewrite fold_names. unfold named. split.
  - intros [H|H]; [by apply elem_of_empty in H | done].
  - intros H. by right.
Qed.

Lemma X16_security_groups_names_witness :
  exists names,
    security_groups put_log serving (_api Fixtures.azure_report) Fixtures.fresh
      = (Return names, Fixtures.fresh) /\
    forall v, v ∈ names <-> named listing "NetworkSecurityGroup" "Name" v.
Proof.
  apply (X16_security_groups_names put_log serving (_api Fixtures.azure_report)
           {| status_code := 200; text := "<xml/>" |} listing Fixtures.fresh);
    reflexivity.
Defined.

(** X17. [cloud_services] never passes a failed query on to its caller:
    a status other than 200, other successes such as 204 included, or a
    body on which the parser raises [ParseError], gives the empty set
    and one record at level ERROR; a status 200 with a body that parses
    gives, without logging, the texts of the first [ServiceName] child
    of the [HostedService] children of the root. *)
Theorem X17_cloud_services {S} (put : LogRecord -> S -> S)
    (env : Azure.Env) (api : AzureAPI) (response : Response) (s : S) :
  queried_services env api = Return response ->
  (status_code response <> 200 ->
   cloud_services put env api s =
   (Return ∅,
    put {| levelname := ERROR; msg := "Failed to get cloud services!";
           args := [] |} s))
  /\ (forall e, status_code response = 200 ->
        fromstring env (text response) = Raise e -> is_ParseError e = true ->
        cloud_services put env api s =
        (Return ∅,
         put {| levelname := ERROR; msg := exc_msg e; args := [] |} s))
  /\ (forall root, status_code response = 200 ->
        fromstring env (text response) = Return root ->
        exists names,
          cloud_services put env api s = (Return names, s) /\
          forall v, v ∈ names <-> named root "HostedService" "ServiceName" v).
Proof.
  unfold queried_services. intros Hq.
  unfold cloud_services, mbind, M_mbind, bind, lift, LOG, modify.
  rewrite Hq. split; [|split].
  - intros Hs. apply Z.eqb_neq in Hs. by rewrite Hs.
  - intros e Hs Hp He. rewrite Hs, Hp, He. reflexivity.
  - intros root Hs Hp. rewrite Hs, Hp. simpl. eexists. split; [reflexivity|].
    intros v. rewrite fold_names. unfold named. split.
    + intros [H|H]; [by apply elem_of_empty in H | done].
    + intros H. by right.
Qed.

Lemma X17_cloud_services_witness :
  cloud_services put_log no_content (_api Fixtures.azure_report) Fixtures.fresh
  = (Return ∅,
     put_log {| levelname := ERROR; msg := "Failed to get cloud services!";
                args := [] |} Fixtures.fresh)
  /\ exists names,
       cloud_services put_log serving (_api Fixtures.azure_report)
         Fixtures.fresh = (Return names, Fixtures.fresh) /\
       forall v, v ∈ names <-> named listing "HostedService" "ServiceName" v.
Proof.
  split.
  - apply (proj1 (X17_cloud_services put_log no_content
                    (_api Fixtures.azure_report)
                    {| status_code := 204; text := "" |} Fixtures.fresh
                    eq_refl)).
    discriminate.
  - apply (proj2 (proj2 (X17_cloud_services put_log serving
                           (_api Fixtures.azure_report)
                           {| status_code := 200; text := "<xml/>" |}
                           Fixtures.fresh eq_refl))); reflexivity.
Defined.

Lemma update_section_last (n : string) (f : Section -> Section)
    (doc : list Section) (sec : Section) :
  has_section n doc = false -> name sec = n ->
  update_section n f (doc ++ [sec]) = doc ++ [f sec].
Proof.
  intros Hfresh Hn. unfold update_section. rewrite map_app. simpl.
  fold (update_section n f doc). rewrite update_section_fresh by done.
  by rewrite Hn, String.eqb_refl.
Qed.

(** X18. When the query returns at least one security group,
    [add_security_groups_info] on a report without a section "sg"
    returns normally with the section "sg" appended and every group
    added to it as an item; whether the group expected by the cluster
    configuration is among them only decides the one record logged
    after the query: INFO when it is, WARNING when it is not. *)
Theorem X18_security_groups_listed (env : Azure.Env) (self : Report)
    (s s2 : State) (groups : gset pyval) :
  has_section "sg" (_information s) = false ->
  security_groups put_log env (_api self)
    {| _information := _information s ++ [sg_section]; log := log s |}
    = (Return groups, s2) ->
  groups <> ∅ ->
  add_security_groups_info env self s =
  (Return tt,
   {| _information :=
        _information s ++
        [{| name := "sg"; title := "Security groups"; description := None;
            fields := [("sg", "Security Group")];
            items := elements groups |}];
      log := log s2 ++
        [sg_record (get_in "cluster" "security_group" (_cluster_config self))
                   groups] |}).
Proof.
  intros Hfresh Hq Hne.
  unfold add_security_groups_info, add_section, add_field.
  unfold mbind, M_mbind, bind, modify. rewrite Hfresh.
  cbn [_information log].
  erewrite update_section_last; [|exact Hfresh|reflexivity].
  cbn [name title description fields items app].
  change {| name := "sg"; title := "Security groups"; description := None;
            fields := [("sg", "Security Group")]; items := [] |}
    with sg_section.
  destruct (security_groups_log env (_api self)
              {| _information := _information s ++ [sg_section];
                 log := log s |}) as [recs Hlog].
  rewrite Hq in Hlog. simpl in Hlog. rewrite Hq.
  rewrite bool_decide_false by done.
  unfold sg_record, add_items, LOG, modify, put_log. subst s2.
  cbn [_information log].
  destruct (bool_decide _); cbn [_information log];
    (erewrite update_section_last; [|exact Hfresh|reflexivity]);
    reflexivity.
Qed.

Lemma X18_security_groups_listed_witness :
  fst (add_security_groups_info serving Fixtures.azure_report Fixtures.fresh)
  = Return tt.
Proof.
  rewrite (X18_security_groups_listed serving Fixtures.azure_report
             Fixtures.fresh
             {| _information := [sg_section]; log := [] |}
             {[ PyStr "bcbio" ]}).
  - reflexivity.
  - reflexivity.
  - vm_compute. reflexivity.
  - apply non_empty_singleton_L.
Defined.

(** * AzureProvider.upload_biodata *)

Import AzureProvider.

Lemma upload_body_files env genome target biodata archive context h :
  files (snd (upload_body env genome target biodata archive context h))
  = files h.
Proof.
  unfold upload_body. destruct (parse_remote env biodata) as [[c b]|e]; [|done].
  destruct (exists_ env c b context) as [[]|e]; [done| |done].
  by destruct (upload env archive b c context).
Qed.

(** X19. The archive written by [compress] does not outlive the call:
    whether the build was already there, was uploaded, or a step of the
    upload raised, the local files afterwards are those left by
    [compress] without the archive.  When [compress] itself raises,
    the caller does not get that exception but the [UnboundLocalError]
    of the clean-up. *)
Theorem X19_archive_removed (env : AzureProvider.Env) (genome target : string)
    (source : list string) (context : string) (h : Host) :
  (forall archive fs,
     compress env source (files h) = (Return archive, fs) ->
     files (snd (upload_biodata env genome target source context h))
       = fs ∖ {[ archive ]})
  /\ (forall e fs,
        compress env source (files h) = (Raise e, fs) ->
        fst (upload_biodata env genome target source context h)
          = UnboundLocalError "archive").
Proof.
  unfold upload_biodata. split.
  - intros archive fs ->.
    pose proof (upload_body_files env genome target
                  (_biodata_template genome target) archive context
                  {| files := fs; events := events h |}) as Hf.
    destruct (upload_body _ _ _ _ _ _ _) as [r h1]. simpl in *.
    unfold remove_archive. rewrite Hf.
    destruct (bool_decide (archive ∈ fs)) eqn:E; simpl; [done|].
    apply bool_decide_eq_false in E. rewrite Hf.
    symmetry. apply difference_disjoint_L. by apply disjoint_singleton_r.
  - by intros e fs ->.
Qed.

Lemma X19_archive_removed_witness :
  files (snd (upload_biodata Fixtures4.empty_account "hg19" "bwa"
                ["/data/hg19"] "ctx" Fixtures4.laptop))
  = (files Fixtures4.laptop ∪ {[ "/tmp/biodata.tar.gz" ]})
      ∖ {[ "/tmp/biodata.tar.gz" ]}
  /\ fst (upload_biodata Fixtures4.full_disk "hg19" "bwa" ["/data/hg19"] "ctx"
            Fixtures4.laptop) = UnboundLocalError "archive".
Proof.
  split.
  - apply (proj1 (X19_archive_removed Fixtures4.empty_account "hg19" "bwa"
                    ["/data/hg19"] "ctx" Fixtures4.laptop)).
    reflexivity.
  - apply (proj2 (X19_archive_removed Fixtures4.full_disk "hg19" "bwa"
                    ["/data/hg19"] "ctx" Fixtures4.laptop)
             (Exc OSError "No space left on device")
             (files Fixtures4.laptop)).
    reflexivity.
Defined.

(** X20. [upload_biodata] starts at most one upload, and only for a
    build the storage manager reports as missing: an upload among the
    new events is the upload of the archive of [compress] to the blob
    and container parsed from the address of the build, after
    [exists] answered [False]. *)
Theorem X20_upload_only_when_missing (env : AzureProvider.Env)
    (genome target : string) (source : list string) (context : string)
    (h : Host) :
  exists evs,
    events (snd (upload_biodata env genome target source context h))
      = events h ++ evs /\
    forall p f c, Upload p f c ∈ evs ->
      exists fs,
        compress env source (files h) = (Return p, fs) /\
        parse_remote env (_biodata_template genome target) = Return (c, f) /\
        exists_ env c f context = Return false /\
        evs = [Info "Upload pre-prepared genome data: %(genome)s, %(target)s:"
                 [("genome", genome); ("target", target)];
               Upload p f c].
Proof.
  unfold upload_biodata.
  destruct (compress env source (files h)) as [[archive|e] fs] eqn:Ec.
  2:{ exists []. rewrite app_nil_r. split; [done|].
      intros p f c H. by apply elem_of_nil in H. }
  unfold upload_body.
  destruct (parse_remote env _) as [[c b]|e] eqn:Ep.
  2:{ exists []. simpl. unfold remove_archive.
      destruct (bool_decide _); simpl; rewrite app_nil_r; split; try done;
        intros p f c' H; by apply elem_of_nil in H. }
  destruct (exists_ env c b context) as [[]|e] eqn:Ex.
  - eexists [_]. simpl. unfold remove_archive.
    destruct (bool_decide _); simpl; (split; [done|]);
      intros p f c' H; apply list_elem_of_singleton in H; discriminate.
  - eexists [_; _].
    assert (Hev : forall h',
      events (remove_archive archive h') = events h') by
      (intros; unfold remove_archive; by destruct (bool_decide _)).
    destruct (upload env archive b c context); simpl; rewrite Hev; simpl;
      rewrite <- app_assoc; (split; [done|]);
      intros p f c' H; apply elem_of_cons in H as [H|H]; try discriminate;
      apply list_elem_of_singleton in H; inversion H; subst;
      exists fs; repeat split; done.
  - exists []. simpl. unfold remove_archive.
    destruct (bool_decide _); simpl; rewrite app_nil_r; split; try done;
      intros p f c' H; by apply elem_of_nil in H.
Qed.

(** * Pack._local_directories *)

Import PackDirs.

Lemma split_nonempty (s : string) : split s <> [].
Proof.
  induction s as [|c s IH]; simpl; [done|].
  destruct (Ascii.eqb c "/"); [done|]. by destruct (split s).
Qed.

Lemma join_cons (part : string) (parts : list string) :
  parts <> [] -> join (part :: parts) = part +:+ "/" +:+ join parts.
Proof. by destruct parts. Qed.

Lemma join_split (s : string) : join (split s) = s.
Proof.
  induction s as [|c s IH]; [done|]. cbn [split].
  pose proof (split_nonempty s) as Hne.
  destruct (Ascii.eqb c "/") eqn:E.
  - apply Ascii.eqb_eq in E. subst c. rewrite join_cons by done.
    by rewrite IH.
  - destruct (split s) as [|part parts]; [done|].
    destruct parts as [|p2 parts].
    + simpl in *. by rewrite IH.
    + rewrite join_cons by done. rewrite join_cons in IH by done.
      rewrite <- IH. reflexivity.
Qed.

Lemma join_app (pre post : list string) :
  pre <> [] -> post <> [] ->
  join (pre ++ post) = join pre +:+ "/" +:+ join post.
Proof.
  intros Hpre Hpost. induction pre as [|p pre IH]; [done|].
  destruct pre as [|p2 pre].
  - simpl app. by rewrite join_cons.
  - change ((p :: p2 :: pre) ++ post) with (p :: ((p2 :: pre) ++ post)).
    rewrite join_cons by done. rewrite IH by done.
    rewrite (join_cons p (p2 :: pre)) by done.
    by rewrite !string_app_assoc.
Qed.

(** What the loop leaves, on the parts in reverse. *)
Lemma pop_until_spec (build : value) (reversed : list string) :
  (Forall (fun part => is_str part build = false) reversed /\
   pop_until build reversed = [])
  \/ exists after part,
       reversed = after ++ part :: pop_until build reversed /\
       is_str part build = true /\
       Forall (fun x => is_str x build = false) after.
Proof.
  induction reversed as [|p l IH]; simpl.
  - left. by split.
  - destruct (is_str p build) eqn:E.
    + right. exists [], p. by repeat split.
    + destruct IH as [[Hall Hnil]|(after & part & Hl & Hp & Hafter)].
      * left. split; [by constructor | done].
      * right. exists (p :: after), part. split; [|split].
        -- simpl. by rewrite <- Hl.
        -- done.
        -- by constructor.
Qed.

Lemma is_str_true (part : string) (build : value) :
  is_str part build = true <-> build = VStr part.
Proof.
  destruct build; simpl; try (split; [done | by intros ?]).
  rewrite String.eqb_eq. split; [by intros -> | by intros [= ->]].
Qed.

(** X21. When [_local_directories] returns, the work directory is the
    entry [dirs/work] of the data ([None] when there is none), and the
    biodata directory is the part of the reference path [base] in front
    of the last path component equal to the genome build:
    [base = biodata_dir/build/...] with no further component [build];
    it is [None] exactly when no component behind the first one equals
    the build. *)
Theorem X21_local_directories (data work_dir : value)
    (biodata_dir : option string) :
  _local_directories data = Ok (work_dir, biodata_dir) ->
  work_dir = get_in ["dirs"; "work"] data /\
  exists base build,
    get_in ["reference"; "fasta"; "base"] data = VStr base /\
    getitem data "genome_build" = Ok build /\
    match biodata_dir with
    | Some dir =>
        exists name rest,
          build = VStr name /\ (name ∉ rest) /\
          base = dir +:+ "/" +:+ join (name :: rest)
    | None => forall name, build = VStr name -> name ∉ tail (split base)
    end.
Proof.
  unfold _local_directories, mbind, answer_mbind, answer_bind. intros H.
  destruct (check_alt data) as [[]|f]; cbv beta iota in H; [|discriminate].
  destruct (get_in ["reference"; "fasta"; "base"] data) as [| | base | | |]
    eqn:Eb; cbv beta iota delta [split_path] in H; try discriminate.
  destruct (getitem data "genome_build") as [build|f] eqn:Eg;
    cbv beta iota in H; [|discriminate].
  cbv zeta in H. inversion H as [[Hw Hdir]]. clear H. split; [done|].
  exists base, build. repeat (split; [done|]).
  pose proof (join_split base) as Hjoin.
  pose proof (rev_involutive (split base)) as Hrev.
  destruct (pop_until_spec build (rev (split base)))
    as [[Hall Hnil]|(after & part & Hl & Hp & Hafter)].
  - rewrite Hnil. simpl. intros name ->. intros Hin.
    assert (Hin' : name ∈ rev (split base)).
    { apply list_elem_of_In, (proj1 (in_rev _ _)), list_elem_of_In.
      destruct (split base); [by apply elem_of_nil in Hin | by right]. }
    rewrite Forall_forall in Hall. specialize (Hall name Hin').
    simpl in Hall. by rewrite String.eqb_refl in Hall.
  - apply is_str_true in Hp. subst build.
    assert (Hparts : split base =
              rev (pop_until (VStr part) (rev (split base)))
                ++ part :: rev after).
    { rewrite <- Hrev at 1. rewrite Hl at 1. rewrite rev_app_distr. simpl.
      by rewrite <- app_assoc. }
    assert (Hnot : part ∉ rev after).
    { intros Hin. apply list_elem_of_In, (proj2 (in_rev _ _)), list_elem_of_In
        in Hin. rewrite Forall_forall in Hafter. specialize (Hafter part Hin).
      simpl in Hafter. by rewrite String.eqb_refl in Hafter. }
    destruct (rev (pop_until (VStr part) (rev (split base))))
      as [|p0 pre] eqn:Epre.
    + intros name [= ->]. rewrite Hparts. simpl. exact Hnot.
    + exists part, (rev after). repeat (split; [done|]).
      rewrite <- Hjoin at 1. rewrite Hparts. by apply join_app.
Qed.

Lemma X21_local_directories_witness :
  exists base build,
    get_in ["reference"; "fasta"; "base"] Fixtures5.hg19_run = VStr base /\
    getitem Fixtures5.hg19_run "genome_build" = Ok build /\
    exists name rest,
      build = VStr name /\ (name ∉ rest) /\
      base = "/data/genomes" +:+ "/" +:+ join (name :: rest).
Proof.
  apply (X21_local_directories Fixtures5.hg19_run (VStr "/mnt/work")
           (Some "/data/genomes")).
  reflexivity.
Defined.
